(** * snowflake-to-googlesheet: a shallow embedding of [main.py]

    The script reads a configuration, a query and a private key, fetches a
    table from the warehouse, stamps it with the run date and overwrites one
    worksheet of a spreadsheet with it.

    Python exceptions are modelled as values of [exn]: instances of the class
    [Exception], which is what every [except Exception] of the script
    catches.  Every call that leaves the process (file system, warehouse,
    spreadsheet service, clock) takes its outcome from an environment [env];
    the calls made are recorded in a trace and the log records in a log, both
    part of the state [world] that the computation threads. *)

From Stdlib Require Import String Ascii List ZArith NArith Lia Bool.
From Stdlib Require Import DecimalString DecimalN.
From Stdlib Require Strings.Byte.
From stdpp Require Import base option list gmap strings fin_maps.

Local Open Scope string_scope.
Local Open Scope list_scope.

(** ** Exceptions *)

Inductive exn : Type :=
| KeyError (key : string)            (* a dict subscript on a missing key *)
| WorksheetNotFound (title : string) (* gspread.exceptions.WorksheetNotFound *)
| OtherError (cls msg : string).     (* any other class derived from Exception *)

(** [str(e)], as the f-strings of the log messages print it.  A [KeyError]
    prints the repr of its key. *)
Definition str_exn (e : exn) : string :=
  match e with
  | KeyError k => "'" +:+ k +:+ "'"
  | WorksheetNotFound t => t
  | OtherError _ msg => msg
  end.

(** [isinstance(e, gspread.exceptions.WorksheetNotFound)] *)
Definition is_WorksheetNotFound (e : exn) : bool :=
  match e with WorksheetNotFound _ => true | _ => false end.

(** ** Tables: the part of [pandas.DataFrame] the script uses *)

Inductive cell : Type :=
| CNone
| CBool (b : bool)
| CInt (z : Z)
| CStr (s : string).

Definition is_none (c : cell) : bool :=
  match c with CNone => true | _ => false end.

(** Column labels in order, and the rows in order. *)
Record DataFrame : Type := mkDataFrame {
  df_columns : list string;
  df_values : list (list cell)
}.

(** A frame is rectangular: every row has one value per column. *)
Definition df_wf (df : DataFrame) : Prop :=
  Forall (fun row => length row = length (df_columns df)) (df_values df).

(** [len(df)] *)
Definition df_len (df : DataFrame) : nat := length (df_values df).

(** [df.columns.values.tolist()] *)
Definition df_header (df : DataFrame) : list cell := map CStr (df_columns df).

(** Overwrite, in one row, the value under every column labelled [name]. *)
Fixpoint overwrite_labelled (name : string) (v : cell)
    (cols : list string) (row : list cell) : list cell :=
  match cols, row with
  | c :: cols', x :: row' =>
      (if String.eqb c name then v else x) :: overwrite_labelled name v cols' row'
  | _, _ => row
  end.

(** [df[name] = v] for a scalar [v]: when a column of that label exists its
    values are overwritten where they are, otherwise a column is appended. *)
Definition df_setitem (df : DataFrame) (name : string) (v : cell) : DataFrame :=
  if existsb (String.eqb name) (df_columns df) then
    {| df_columns := df_columns df;
       df_values := map (overwrite_labelled name v (df_columns df)) (df_values df) |}
  else
    {| df_columns := df_columns df ++ [name];
       df_values := map (fun row => row ++ [v]) (df_values df) |}.

(** ** Dates: [datetime.date] and [isoformat] *)

Definition is_leap (y : N) : bool :=
  ((y mod 4 =? 0) && (negb (y mod 100 =? 0) || (y mod 400 =? 0)))%N.

Definition days_in_month (y m : N) : N :=
  (if m =? 2 then (if is_leap y then 29 else 28)
   else if (m =? 4) || (m =? 6) || (m =? 9) || (m =? 11) then 30
   else 31)%N.

(** The range check of the [date] constructor (MINYEAR = 1, MAXYEAR = 9999). *)
Definition valid_date (y m d : N) : bool :=
  ((1 <=? y) && (y <=? 9999) && (1 <=? m) && (m <=? 12)
   && (1 <=? d) && (d <=? days_in_month y m))%N.

Record date : Type := mkDate {
  year : N;
  month : N;
  day : N;
  date_ok : valid_date year month day = true
}.

(** [str(n)] for a non-negative integer. *)
Definition str_int (n : N) : string := NilEmpty.string_of_uint (N.to_uint n).

(** [int(s)] for a string of decimal digits. *)
Definition int_of_str (s : string) : option N :=
  match s with
  | EmptyString => None
  | _ => option_map N.of_uint (NilEmpty.uint_of_string s)
  end.

Fixpoint zeros (n : nat) : string :=
  match n with
  | O => EmptyString
  | S n' => String "0" (zeros n')
  end.

(** The conversion [%0wd]: decimal digits, padded with zeros on the left. *)
Definition fmt_0d (w : nat) (n : N) : string :=
  let s := str_int n in zeros (w - String.length s) +:+ s.

(** [date.isoformat()], that is ["%04d-%02d-%02d" % (year, month, day)]. *)
Definition isoformat (d : date) : string :=
  fmt_0d 4 (year d) +:+ "-" +:+ fmt_0d 2 (month d) +:+ "-" +:+ fmt_0d 2 (day d).

(** A reader of the calendar form YYYY-MM-DD of ISO 8601. *)
Definition digit_val (c : ascii) : option N :=
  let n := N_of_ascii c in
  if ((48 <=? n) && (n <=? 57))%N then Some (n - 48)%N else None.

Definition parse_iso_date (s : string) : option (N * N * N) :=
  match s with
  | String y1 (String y2 (String y3 (String y4 (String "-"
      (String m1 (String m2 (String "-"
        (String d1 (String d2 EmptyString))))))))) =>
      y1 ← digit_val y1; y2 ← digit_val y2; y3 ← digit_val y3; y4 ← digit_val y4;
      m1 ← digit_val m1; m2 ← digit_val m2;
      d1 ← digit_val d1; d2 ← digit_val d2;
      let y := (1000 * y1 + 100 * y2 + 10 * y3 + y4)%N in
      let m := (10 * m1 + m2)%N in
      let d := (10 * d1 + d2)%N in
      if valid_date y m d then Some (y, m, d) else None
  | _ => None
  end.

(** ** The world outside the process *)

Inductive level : Type := INFO | WARNING | ERROR.

(** One record of the [logging] output: level and message. *)
Definition log_record : Type := (level * string)%type.

(** The calls that leave the process, in the order they are made. *)
Inductive event : Type :=
| FileRead (path : string)
| EngineConnect
| Execute (statement : string)
| ReadSql (query : string)
| ConnectionClose
| Authorize (keyfile : string)
| OpenByUrl (url : string)
| GetWorksheet (title : string)
| Clear (title : string)
| AddWorksheet (title rows cols : string)
| Update (title : string) (data : list (list cell)).

(** Reading a local file is the one call that does not use the network. *)
Definition is_network (ev : event) : bool :=
  match ev with FileRead _ => false | _ => true end.

(** The calls addressed to the spreadsheet service. *)
Definition is_sheets_call (ev : event) : bool :=
  match ev with
  | Authorize _ | OpenByUrl _ | GetWorksheet _ | Clear _
  | AddWorksheet _ _ _ | Update _ _ => true
  | _ => false
  end.

(** The calls that write values. *)
Definition is_update (ev : event) : bool :=
  match ev with Update _ _ => true | _ => false end.

(** The calls addressed to one worksheet of the opened spreadsheet. *)
Definition is_worksheet_call (ev : event) : bool :=
  match ev with
  | GetWorksheet _ | Clear _ | AddWorksheet _ _ _ | Update _ _ => true
  | _ => false
  end.

(** A worksheet: the size of its grid and the cells that hold a value,
    indexed by (row, column) from 0, so that A1 is (0, 0). *)
Record worksheet : Type := mkWorksheet {
  ws_rows : N;
  ws_cols : N;
  ws_cells : gmap (nat * nat) cell
}.

Record world : Type := mkWorld {
  w_log : list log_record;
  w_trace : list event;
  w_sheets : gmap string worksheet
}.

(** The process starts with an empty log and no call made. *)
Definition init_world (sheets : gmap string worksheet) : world :=
  {| w_log := []; w_trace := []; w_sheets := sheets |}.

(** The cryptography library: the PEM reader (without password), the
    DER/PKCS8 writer (without encryption) and the DER reader. *)
Class Cryptography : Type := {
  private_key : Type;
  load_pem_private_key : list Byte.byte -> exn + private_key;
  private_bytes_der_pkcs8 : private_key -> list Byte.byte;
  load_der_private_key : list Byte.byte -> option private_key
}.

(** What [json.load] returns for the configuration file: a dict, or a value
    of another type (list, str, number, bool, None).  A value that is not a
    dict is known by the message of the [TypeError] that its subscript with a
    str raises. *)
Inductive config_value : Type :=
| ConfigDict (d : gmap string string)
| ConfigOther (type_error : string).

(** What the outside answers.  A call whose entry is [Some e] (or [inl e])
    raises [e] and has no other effect. *)
Record env : Type := mkEnv {
  e_json : string -> exn + config_value;       (* open(path) and json.load *)
  e_text : string -> exn + string;             (* Path(path).read_text *)
  e_bytes : string -> exn + list Byte.byte;    (* open(path, "rb").read() *)
  e_create_engine : option exn;
  e_connect : option exn;
  e_execute : string -> option exn;
  e_read_sql : string -> exn + DataFrame;
  e_close : option exn;
  e_today : date;
  e_keyfile : string -> option exn;
  e_authorize : option exn;
  e_open_by_url : string -> option exn;
  e_worksheet : string -> option exn;
  e_clear : string -> option exn;
  e_add_worksheet : string -> option exn;
  e_update : string -> option exn
}.

(** ** The monad of the script: state that survives exceptions *)

Definition M (A : Type) : Type := world -> (exn + A) * world.

Definition ret {A} (a : A) : M A := fun w => (inr a, w).

Definition raise {A} (e : exn) : M A := fun w => (inl e, w).

Definition bind {A B} (m : M A) (k : A -> M B) : M B :=
  fun w =>
    match m w with
    | (inr a, w') => k a w'
    | (inl e, w') => (inl e, w')
    end.

Declare Scope py_scope.
Delimit Scope py_scope with py.
Notation "x <- m ;; k" := (bind m (fun x => k))
  (at level 100, m at next level, right associativity) : py_scope.
Notation "m ;; k" := (bind m (fun _ => k))
  (at level 100, right associativity) : py_scope.
Local Open Scope py_scope.

(** [try: m  except Exception as e: h e] *)
Definition try_except {A} (m : M A) (h : exn -> M A) : M A :=
  fun w =>
    match m w with
    | (inl e, w') => h e w'
    | r => r
    end.

(** [try: m  except C: h], for the class [C] that [is_C] recognises. *)
Definition try_except_class {A} (is_C : exn -> bool) (m : M A) (h : M A) : M A :=
  fun w =>
    match m w with
    | (inl e, w') => if is_C e then h w' else (inl e, w')
    | r => r
    end.

(** [try: m  finally: f].  An exception of [f] replaces the outcome of [m]. *)
Definition try_finally {A} (m : M A) (f : M unit) : M A :=
  fun w =>
    match m w with
    | (r, w') =>
        match f w' with
        | (inl e, w'') => (inl e, w'')
        | (inr _, w'') => (r, w'')
        end
    end.

Definition emit (ev : event) : M unit :=
  fun w => (inr tt, {| w_log := w_log w; w_trace := w_trace w ++ [ev];
                       w_sheets := w_sheets w |}).

Definition logger (l : level) (msg : string) : M unit :=
  fun w => (inr tt, {| w_log := w_log w ++ [(l, msg)]; w_trace := w_trace w;
                       w_sheets := w_sheets w |}).

Definition get_sheets : M (gmap string worksheet) :=
  fun w => (inr (w_sheets w), w).

Definition put_sheets (s : gmap string worksheet) : M unit :=
  fun w => (inr tt, {| w_log := w_log w; w_trace := w_trace w; w_sheets := s |}).

(** A call that raises when the environment says so. *)
Definition may_raise (o : option exn) : M unit :=
  match o with Some e => raise e | None => ret tt end.

Definition of_sum {A} (r : exn + A) : M A :=
  match r with inl e => raise e | inr a => ret a end.

(** [config[k]] on what [json.load] returned. *)
Definition subscript (config : config_value) (k : string) : M string :=
  match config with
  | ConfigDict d =>
      match d !! k with Some v => ret v | None => raise (KeyError k) end
  | ConfigOther type_error => raise (OtherError "TypeError" type_error)
  end.

(** ** Base64 ([base64.b64encode], RFC 4648 with padding) *)

Definition b64_char (n : N) : ascii :=
  (if n <? 26 then ascii_of_N (65 + n)
   else if n <? 52 then ascii_of_N (97 + (n - 26))
   else if n <? 62 then ascii_of_N (48 + (n - 52))
   else if n =? 62 then "+"%char
   else "/"%char)%N.

Definition b64_index (c : ascii) : option N :=
  let n := N_of_ascii c in
  (if (65 <=? n) && (n <=? 90) then Some (n - 65)
   else if (97 <=? n) && (n <=? 122) then Some (n - 97 + 26)
   else if (48 <=? n) && (n <=? 57) then Some (n - 48 + 52)
   else if n =? 43 then Some 62
   else if n =? 47 then Some 63
   else None)%N.

Definition pad_char : ascii := "="%char.

Fixpoint b64encode (bs : list Byte.byte) : string :=
  match bs with
  | [] => EmptyString
  | [a] =>
      let n := (Byte.to_N a * 65536)%N in
      String (b64_char (n / 262144)) (String (b64_char (n / 4096 mod 64))
        (String pad_char (String pad_char EmptyString)))
  | [a; b] =>
      let n := (Byte.to_N a * 65536 + Byte.to_N b * 256)%N in
      String (b64_char (n / 262144)) (String (b64_char (n / 4096 mod 64))
        (String (b64_char (n / 64 mod 64)) (String pad_char EmptyString)))
  | a :: b :: c :: rest =>
      let n := (Byte.to_N a * 65536 + Byte.to_N b * 256 + Byte.to_N c)%N in
      String (b64_char (n / 262144)) (String (b64_char (n / 4096 mod 64))
        (String (b64_char (n / 64 mod 64)) (String (b64_char (n mod 64))
          (b64encode rest))))
  end.

(** [base64.b64decode] on text made of alphabet characters and padding. *)
Fixpoint b64decode (s : string) : option (list Byte.byte) :=
  match s with
  | EmptyString => Some []
  | String c1 (String c2 (String c3 (String c4 rest))) =>
      i1 ← b64_index c1; i2 ← b64_index c2;
      if Ascii.eqb c4 pad_char then
        match rest with
        | EmptyString =>
            if Ascii.eqb c3 pad_char then
              let n := (i1 * 262144 + i2 * 4096)%N in
              a ← Byte.of_N (n / 65536);
              Some [a]
            else
              i3 ← b64_index c3;
              let n := (i1 * 262144 + i2 * 4096 + i3 * 64)%N in
              a ← Byte.of_N (n / 65536); b ← Byte.of_N (n / 256 mod 256);
              Some [a; b]
        | _ => None
        end
      else
        i3 ← b64_index c3; i4 ← b64_index c4;
        let n := (i1 * 262144 + i2 * 4096 + i3 * 64 + i4)%N in
        a ← Byte.of_N (n / 65536); b ← Byte.of_N (n / 256 mod 256);
        c ← Byte.of_N (n mod 256);
        tl ← b64decode rest;
        Some (a :: b :: c :: tl)
  | _ => None
  end.

(** ** PKCS#8 private keys in DER (RFC 5208, X.690)

    What [private_bytes(Encoding.DER, PrivateFormat.PKCS8, NoEncryption())]
    writes and [load_der_private_key] reads: the PrivateKeyInfo sequence of
    version 0, AlgorithmIdentifier and private key octets, each as tag,
    definite length and content. *)

Definition byte_of_N (n : N) : Byte.byte :=
  match Byte.of_N n with Some b => b | None => Byte.x00 end.

(** A private key as PKCS#8 holds it: the content octets of its
    AlgorithmIdentifier and the octets of the key proper. *)
Record PrivateKeyInfo : Type := mkPrivateKeyInfo {
  pki_algorithm : list Byte.byte;
  pki_key : list Byte.byte
}.

(** A [bytes] object of Python is shorter than 2^63. *)
Definition pki_fits (k : PrivateKeyInfo) : bool :=
  ((N.of_nat (length (pki_algorithm k)) <? 2 ^ 63)
   && (N.of_nat (length (pki_key k)) <? 2 ^ 63))%N.

(** The base-256 digits of [n], most significant first. *)
Fixpoint be_digits (fuel : nat) (n : N) : list Byte.byte :=
  match fuel with
  | O => []
  | S fuel' =>
      if (n =? 0)%N then []
      else be_digits fuel' (n / 256) ++ [byte_of_N (n mod 256)]
  end.

Definition be_value (ds : list Byte.byte) : N :=
  fold_left (fun a b => (a * 256 + Byte.to_N b)%N) ds 0%N.

(** The length octets: one octet below 128, otherwise the count of the
    digits, with the top bit set, and the digits. *)
Definition der_length (n : N) : list Byte.byte :=
  if (n <? 128)%N then [byte_of_N n]
  else
    let ds := be_digits (N.to_nat (N.size n)) n in
    byte_of_N (128 + N.of_nat (length ds)) :: ds.

Definition der_tlv (tag : Byte.byte) (content : list Byte.byte) : list Byte.byte :=
  tag :: der_length (N.of_nat (length content)) ++ content.

Definition tag_integer : Byte.byte := Byte.x02.
Definition tag_octet_string : Byte.byte := Byte.x04.
Definition tag_sequence : Byte.byte := Byte.x30.

Definition der_pkcs8 (k : PrivateKeyInfo) : list Byte.byte :=
  der_tlv tag_sequence
    (der_tlv tag_integer [Byte.x00]
     ++ der_tlv tag_sequence (pki_algorithm k)
     ++ der_tlv tag_octet_string (pki_key k)).

Definition parse_length (bs : list Byte.byte) : option (N * list Byte.byte) :=
  match bs with
  | [] => None
  | b :: rest =>
      let n := Byte.to_N b in
      if (n <? 128)%N then Some (n, rest)
      else
        let count := N.to_nat (n - 128) in
        if Nat.eqb count 0 then None
        else if Nat.ltb (length rest) count then None
        else Some (be_value (take count rest), drop count rest)
  end.

(** One element with the given tag: its content, and what follows it. *)
Definition parse_tlv (tag : Byte.byte) (bs : list Byte.byte)
    : option (list Byte.byte * list Byte.byte) :=
  match bs with
  | [] => None
  | t :: rest =>
      if Byte.eqb t tag then
        '(n, rest') ← parse_length rest;
        if Nat.ltb (length rest') (N.to_nat n) then None
        else Some (take (N.to_nat n) rest', drop (N.to_nat n) rest')
      else None
  end.

Definition is_nil {A} (l : list A) : bool :=
  match l with [] => true | _ => false end.

Definition parse_pkcs8 (bs : list Byte.byte) : option PrivateKeyInfo :=
  '(body, after) ← parse_tlv tag_sequence bs;
  '(version, r1) ← parse_tlv tag_integer body;
  '(algorithm, r2) ← parse_tlv tag_sequence r1;
  '(key, r3) ← parse_tlv tag_octet_string r2;
  match version with
  | [v] =>
      if Byte.eqb v Byte.x00 && is_nil after && is_nil r3
      then Some (mkPrivateKeyInfo algorithm key)
      else None
  | _ => None
  end.

(** The cryptography library on PKCS#8 keys, with the reader of PEM files
    left open. *)
Definition pkcs8 (pem_reader : list Byte.byte -> exn + PrivateKeyInfo)
    : Cryptography :=
  {| private_key := PrivateKeyInfo;
     load_pem_private_key := pem_reader;
     private_bytes_der_pkcs8 := der_pkcs8;
     load_der_private_key := parse_pkcs8 |}.

(** ** The spreadsheet service, as gspread presents it *)

(** One value of an update.  The service skips a null and leaves the cell as
    it is. *)
Definition write_cell (pos : nat * nat) (v : cell)
    (cells : gmap (nat * nat) cell) : gmap (nat * nat) cell :=
  if is_none v then cells else <[pos := v]> cells.

(** Row [i] of a block, written from column [j] on. *)
Fixpoint write_row (i j : nat) (row : list cell)
    (cells : gmap (nat * nat) cell) : gmap (nat * nat) cell :=
  match row with
  | [] => cells
  | v :: row' => write_row i (S j) row' (write_cell (i, j) v cells)
  end.

(** A block of rows, written from row [i] on, each from the first column. *)
Fixpoint write_block (i : nat) (data : list (list cell))
    (cells : gmap (nat * nat) cell) : gmap (nat * nat) cell :=
  match data with
  | [] => cells
  | row :: data' => write_block (S i) data' (write_row i 0 row cells)
  end.

Definition api_error (msg : string) : exn := OtherError "APIError" msg.

(** [spreadsheet.worksheet(title)]: the handle of the worksheet of that
    title (the title stands for the handle), [WorksheetNotFound] without one. *)
Definition spreadsheet_worksheet (E : env) (title : string) : M string :=
  emit (GetWorksheet title);;
  may_raise (e_worksheet E title);;
  sheets <- get_sheets;;
  match sheets !! title with
  | Some _ => ret title
  | None => raise (WorksheetNotFound title)
  end.

(** [worksheet.clear()]: no cell holds a value afterwards. *)
Definition worksheet_clear (E : env) (ws : string) : M unit :=
  emit (Clear ws);;
  may_raise (e_clear E ws);;
  sheets <- get_sheets;;
  match sheets !! ws with
  | Some sh =>
      put_sheets (<[ws := {| ws_rows := ws_rows sh; ws_cols := ws_cols sh;
                             ws_cells := ∅ |}]> sheets)
  | None => raise (api_error "no such sheet")
  end.

(** [spreadsheet.add_worksheet(title, rows, cols)]: a new, empty worksheet of
    that size; titles are unique within a spreadsheet. *)
Definition spreadsheet_add_worksheet (E : env) (title rows cols : string)
    : M string :=
  emit (AddWorksheet title rows cols);;
  may_raise (e_add_worksheet E title);;
  sheets <- get_sheets;;
  match sheets !! title, int_of_str rows, int_of_str cols with
  | None, Some r, Some c =>
      put_sheets (<[title := {| ws_rows := r; ws_cols := c; ws_cells := ∅ |}]> sheets);;
      ret title
  | Some _, _, _ => raise (api_error "a sheet of that name already exists")
  | _, _, _ => raise (api_error "invalid grid size")
  end.

(** Whether every row of a block is as long as its first row, as the rows
    of [[df.columns.values.tolist()] + df.values.tolist()] are. *)
Definition rectangular (data : list (list cell)) : bool :=
  match data with
  | [] => true
  | first :: rows => forallb (fun row => Nat.eqb (length row) (length first)) rows
  end.

(** The number of columns of a rectangular block. *)
Definition block_cols (data : list (list cell)) : N :=
  match data with
  | [] => 0
  | first :: _ => N.of_nat (length first)
  end.

(** [worksheet.update("A1", data)]: the block is written from the top-left
    cell on, and afterwards the grid holds it: a grid with fewer rows or
    columns than the block is extended to the size of the block.  Whether
    the service extends the grid or refuses such a block is for the service
    to say, through [e_update].  A block that is not rectangular does not
    come from a DataFrame and is refused. *)
Definition worksheet_update_A1 (E : env) (ws : string) (data : list (list cell))
    : M unit :=
  emit (Update ws data);;
  may_raise (e_update E ws);;
  sheets <- get_sheets;;
  match sheets !! ws with
  | Some sh =>
      if rectangular data then
        put_sheets
          (<[ws := {| ws_rows := N.max (ws_rows sh) (N.of_nat (length data));
                      ws_cols := N.max (ws_cols sh) (block_cols data);
                      ws_cells := write_block 0 data (ws_cells sh) |}]> sheets)
      else raise (api_error "invalid values")
  | None => raise (api_error "no such sheet")
  end.

(** ** The script *)

Section Script.
Context `{Cryptography}.
Variable E : env.

Definition load_config (path : string) : M config_value :=
  try_except
    (emit (FileRead path);;
     config <- of_sum (e_json E path);;
     logger INFO "Loaded config.json successfully.";;
     ret config)
    (fun e =>
       logger ERROR ("Error loading config.json: " +:+ str_exn e);;
       raise e).

Definition load_query (filepath : string) : M string :=
  emit (FileRead filepath);;
  of_sum (e_text E filepath).

Definition load_private_key_base64 (path : string) : M string :=
  try_except
    (emit (FileRead path);;
     pem <- of_sum (e_bytes E path);;
     key <- of_sum (load_pem_private_key pem);;
     logger INFO "Private key loaded successfully";;
     let private_key_der := private_bytes_der_pkcs8 key in
     ret (b64encode private_key_der))
    (fun e =>
       logger ERROR ("Failed to load or convert private key: " +:+ str_exn e);;
       raise e).

(** The connection URL that [snowflake.sqlalchemy.URL] builds. *)
Record URL : Type := mkURL {
  url_user : string;
  url_private_key : string;
  url_account : string;
  url_warehouse : string;
  url_database : string;
  url_schema : string
}.

Record SnowflakeClient : Type := mkSnowflakeClient { sf_url : URL }.

Definition SnowflakeClient_init (config : config_value)
    (private_key_base64 : string) : M SnowflakeClient :=
  try_except
    (user <- subscript config "SNOWFLAKE_USER";;
     account <- subscript config "SNOWFLAKE_ACCOUNT";;
     warehouse <- subscript config "SNOWFLAKE_WAREHOUSE";;
     database <- subscript config "SNOWFLAKE_DATABASE";;
     schema <- subscript config "SNOWFLAKE_SCHEMA";;
     let url := mkURL user private_key_base64 account warehouse database schema in
     may_raise (e_create_engine E);;
     emit EngineConnect;;
     may_raise (e_connect E);;
     wh <- subscript config "SNOWFLAKE_WAREHOUSE";;
     let statement := "USE WAREHOUSE " +:+ wh +:+ ";" in
     emit (Execute statement);;
     may_raise (e_execute E statement);;
     logger INFO "Snowflake connection established.";;
     ret (mkSnowflakeClient url))
    (fun e =>
       logger ERROR ("Error initializing Snowflake: " +:+ str_exn e);;
       raise e).

Definition fetch_data (self : SnowflakeClient) (query : string) : M DataFrame :=
  try_except
    (logger INFO "Fetching data from Snowflake...";;
     emit (ReadSql query);;
     of_sum (e_read_sql E query))
    (fun e =>
       logger ERROR ("Error fetching data: " +:+ str_exn e);;
       raise e).

Definition close (self : SnowflakeClient) : M unit :=
  try_except
    (logger INFO "Closing Snowflake connection.";;
     emit ConnectionClose;;
     may_raise (e_close E))
    (fun e =>
       logger ERROR ("Error closing Snowflake connection: " +:+ str_exn e)).

Definition GoogleSheetsClient_init (json_keyfile : string) : M unit :=
  try_except
    (emit (FileRead json_keyfile);;
     may_raise (e_keyfile E json_keyfile);;
     emit (Authorize json_keyfile);;
     may_raise (e_authorize E);;
     logger INFO "Google Sheets authorization successful")
    (fun e =>
       logger ERROR ("Authorization error: " +:+ str_exn e);;
       raise e).

Definition get_spreadsheet_by_url (url : string) : M unit :=
  try_except
    (emit (OpenByUrl url);;
     may_raise (e_open_by_url E url);;
     logger INFO ("Opened Google Spreadsheet: " +:+ url))
    (fun e =>
       logger ERROR ("Could not open spreadsheet by URL: " +:+ str_exn e);;
       raise e).

(** The size arguments of [add_worksheet]. *)
Definition new_rows (df : DataFrame) : N := N.max 100 (N.of_nat (df_len df) + 1).
Definition new_cols (df : DataFrame) : N :=
  N.max 10 (N.of_nat (length (df_columns df)) + 1).

(** The block that is written: header row, then the rows. *)
Definition sheet_data (df : DataFrame) : list (list cell) :=
  df_header df :: df_values df.

(** The body of the inner [try] of [overwrite_with_dataframe]. *)
Definition lookup_and_clear (sheet_name : string) : M string :=
  worksheet <- spreadsheet_worksheet E sheet_name;;
  worksheet_clear E worksheet;;
  logger INFO ("Sheet '" +:+ sheet_name +:+ "' cleared.");;
  ret worksheet.

(** Its handler for [WorksheetNotFound]. *)
Definition create_worksheet (sheet_name : string) (df : DataFrame) : M string :=
  worksheet <- spreadsheet_add_worksheet E sheet_name
                 (str_int (new_rows df)) (str_int (new_cols df));;
  logger INFO ("Created new sheet '" +:+ sheet_name +:+ "'.");;
  ret worksheet.

(** The inner [try] of [overwrite_with_dataframe]: the worksheet to write. *)
Definition locate_or_create (sheet_name : string) (df : DataFrame) : M string :=
  try_except_class is_WorksheetNotFound
    (lookup_and_clear sheet_name)
    (create_worksheet sheet_name df).

(** The body of the outer [try] of [overwrite_with_dataframe]. *)
Definition overwrite_body (sheet_name : string) (df : DataFrame) : M bool :=
  worksheet <- locate_or_create sheet_name df;;
  let data := sheet_data df in
  worksheet_update_A1 E worksheet data;;
  logger INFO ("Data successfully written to sheet '" +:+ sheet_name +:+ "'.");;
  ret true.

Definition overwrite_with_dataframe (sheet_name : string) (df : DataFrame)
    : M bool :=
  try_except
    (overwrite_body sheet_name df)
    (fun e =>
       logger ERROR ("Failed to write data to sheet '" +:+ sheet_name +:+ "': "
                     +:+ str_exn e);;
       ret false).

(** The date-stamp step: [df["update_date"] = date.today().isoformat()]. *)
Definition date_stamp (df : DataFrame) : DataFrame :=
  df_setitem df "update_date" (CStr (isoformat (e_today E))).

Definition main : M unit :=
  config <- load_config "config.json";;
  query <- load_query "query.sql";;
  rsa_key_path <- subscript config "RSA_KEY_PATH";;
  private_key_base64 <- load_private_key_base64 rsa_key_path;;
  db <- SnowflakeClient_init config private_key_base64;;
  df <- try_finally
          (df <- fetch_data db query;;
           ret (date_stamp df))
          (close db);;
  keyfile <- subscript config "GOOGLE_KEYFILE_PATH";;
  GoogleSheetsClient_init keyfile;;
  url <- subscript config "SPREADSHEET_URL";;
  get_spreadsheet_by_url url;;
  sheet_name <- subscript config "SHEET_NAME";;
  success <- overwrite_with_dataframe sheet_name df;;
  if success : bool then logger INFO "Data successfully pushed to Google Sheets."
  else logger WARNING "Data push to Google Sheets failed.".


(** How far the run of [main] from [w0] has got: the stages before have
    returned, with what they returned and the world they left. *)
Inductive reaches_query (w0 : world) : config_value -> world -> Prop :=
| reaches_query_intro config w1 :
    load_config "config.json" w0 = (inr config, w1) ->
    reaches_query w0 config w1.

Inductive reaches_key_path (w0 : world) : config_value -> string -> world -> Prop :=
| reaches_key_path_intro config w1 query w2 :
    reaches_query w0 config w1 ->
    load_query "query.sql" w1 = (inr query, w2) ->
    reaches_key_path w0 config query w2.

Inductive reaches_key_load (w0 : world)
    : config_value -> string -> string -> world -> Prop :=
| reaches_key_load_intro config query w2 path w2' :
    reaches_key_path w0 config query w2 ->
    subscript config "RSA_KEY_PATH" w2 = (inr path, w2') ->
    reaches_key_load w0 config query path w2'.

Inductive reaches_connect (w0 : world)
    : config_value -> string -> string -> world -> Prop :=
| reaches_connect_intro config query path w2 key w3 :
    reaches_key_load w0 config query path w2 ->
    load_private_key_base64 path w2 = (inr key, w3) ->
    reaches_connect w0 config query key w3.

(** The constructor of [SnowflakeClient] has returned [db]: the connection
    is open and the warehouse is selected. *)
Inductive reaches_fetch (w0 : world) : string -> SnowflakeClient -> world -> Prop :=
| reaches_fetch_intro config query key w3 db w4 :
    reaches_connect w0 config query key w3 ->
    SnowflakeClient_init config key w3 = (inr db, w4) ->
    reaches_fetch w0 query db w4.


End Script.


(** The keys that [main] and [SnowflakeClient] read from the configuration. *)
Definition warehouse_keys : list string :=
  ["RSA_KEY_PATH"; "SNOWFLAKE_USER"; "SNOWFLAKE_ACCOUNT"; "SNOWFLAKE_WAREHOUSE";
   "SNOWFLAKE_DATABASE"; "SNOWFLAKE_SCHEMA"].

Definition required_keys : list string :=
  warehouse_keys ++ ["GOOGLE_KEYFILE_PATH"; "SPREADSHEET_URL"; "SHEET_NAME"].

(** The calls that [main] makes only after it has read the key [k]. *)
Definition calls_behind (k : string) (ev : event) : bool :=
  if String.eqb k "GOOGLE_KEYFILE_PATH" then is_sheets_call ev
  else if String.eqb k "SPREADSHEET_URL" then
    match ev with OpenByUrl _ => true | _ => is_worksheet_call ev end
  else if String.eqb k "SHEET_NAME" then is_worksheet_call ev
  else is_network ev.

(** ** A concrete run: the end-to-end scenario *)

Module Scenario.

(** A stand-in for the cryptography library: a key is its PKCS8 body and the
    PEM file holds that body. *)
Definition crypto : Cryptography :=
  {| private_key := list Byte.byte;
     load_pem_private_key := fun pem =>
       match pem with
       | [] => inl (OtherError "ValueError" "Could not deserialize key data.")
       | _ => inr pem
       end;
     private_bytes_der_pkcs8 := fun k => k;
     load_der_private_key := fun der => Some der |}.

(** An RSA key as PKCS#8 holds it: the rsaEncryption identifier with its
    null parameters, and a short key body. *)
Definition key_info : PrivateKeyInfo :=
  {| pki_algorithm := [Byte.x06; Byte.x09; Byte.x2a; Byte.x86; Byte.x48;
                       Byte.x86; Byte.xf7; Byte.x0d; Byte.x01; Byte.x01;
                       Byte.x01; Byte.x05; Byte.x00];
     pki_key := [Byte.x30; Byte.x03; Byte.x02; Byte.x01; Byte.x00] |}.

(** A key whose body needs the long form of the DER length. *)
Definition long_key_info : PrivateKeyInfo :=
  {| pki_algorithm := pki_algorithm key_info;
     pki_key := repeat Byte.xa5 300 |}.

(** A reader of PEM files that finds [key_info] in every file that is not
    empty. *)
Definition pem_reader (pem : list Byte.byte) : exn + PrivateKeyInfo :=
  match pem with
  | [] => inl (OtherError "ValueError" "Could not deserialize key data.")
  | _ => inr key_info
  end.

Definition config : gmap string string :=
  list_to_map
    [("SNOWFLAKE_USER", "etl"); ("SNOWFLAKE_ACCOUNT", "acme");
     ("SNOWFLAKE_WAREHOUSE", "WH"); ("SNOWFLAKE_DATABASE", "DB");
     ("SNOWFLAKE_SCHEMA", "PUBLIC"); ("RSA_KEY_PATH", "rsa_key.p8");
     ("GOOGLE_KEYFILE_PATH", "sa.json");
     ("SPREADSHEET_URL", "https://docs.google.com/spreadsheets/d/1");
     ("SHEET_NAME", "Report")].

Definition query_result : DataFrame :=
  {| df_columns := ["id"; "amount"];
     df_values := [[CInt 1; CInt 10]; [CInt 2; CInt 20]] |}.

(** A query result that already carries a column [update_date]. *)
Definition stamped_result : DataFrame :=
  {| df_columns := ["id"; "update_date"];
     df_values := [[CInt 1; CStr "2023-12-31"]; [CInt 2; CNone]] |}.

Definition run_date : date := mkDate 2024 1 1 eq_refl.

Definition file_not_found (path : string) : exn :=
  OtherError "FileNotFoundError" ("No such file: " +:+ path).

(** An environment in which every call succeeds, but for the configuration
    read, the query file and the answer to [clear], which are given. *)
Definition scenario_env (cfg : gmap string string) (query : exn + string)
    (clear : string -> option exn) : env :=
  {| e_json := fun path =>
       if String.eqb path "config.json" then inr (ConfigDict cfg)
       else inl (file_not_found path);
     e_text := fun path =>
       if String.eqb path "query.sql" then query
       else inl (file_not_found path);
     e_bytes := fun path =>
       if String.eqb path "rsa_key.p8" then inr [Byte.x30; Byte.x82; Byte.x04]
       else inl (file_not_found path);
     e_create_engine := None;
     e_connect := None;
     e_execute := fun _ => None;
     e_read_sql := fun _ => inr query_result;
     e_close := None;
     e_today := run_date;
     e_keyfile := fun _ => None;
     e_authorize := None;
     e_open_by_url := fun _ => None;
     e_worksheet := fun _ => None;
     e_clear := clear;
     e_add_worksheet := fun _ => None;
     e_update := fun _ => None |}.

(** Every file is there and every call succeeds. *)
Definition env_ok : env :=
  scenario_env config (inr "SELECT id, amount FROM t") (fun _ => None).

(** As [env_ok], except that [clear] raises [WorksheetNotFound]. *)
Definition env_clear_raises : env :=
  scenario_env config (inr "SELECT id, amount FROM t")
    (fun title => Some (WorksheetNotFound title)).

(** As [env_ok], without the query file. *)
Definition env_no_query : env :=
  scenario_env config (inl (file_not_found "query.sql")) (fun _ => None).

(** As [env_ok], with a configuration that lacks the key [SHEET_NAME]. *)
Definition env_no_sheet_name : env :=
  scenario_env (delete "SHEET_NAME" config) (inr "SELECT id, amount FROM t")
    (fun _ => None).

(** As [env_ok], except that the warehouse refuses the USE WAREHOUSE
    statement. *)
Definition env_use_warehouse_fails : env :=
  {| e_json := e_json env_ok; e_text := e_text env_ok; e_bytes := e_bytes env_ok;
     e_create_engine := None; e_connect := None;
     e_execute := fun _ => Some (OtherError "ProgrammingError" "no such warehouse");
     e_read_sql := e_read_sql env_ok; e_close := None; e_today := run_date;
     e_keyfile := fun _ => None; e_authorize := None;
     e_open_by_url := fun _ => None; e_worksheet := fun _ => None;
     e_clear := fun _ => None; e_add_worksheet := fun _ => None;
     e_update := fun _ => None |}.

(** As [env_ok], with a query that the warehouse rejects. *)
Definition env_bad_query : env :=
  {| e_json := e_json env_ok; e_text := e_text env_ok; e_bytes := e_bytes env_ok;
     e_create_engine := None; e_connect := None; e_execute := fun _ => None;
     e_read_sql := fun _ => inl (OtherError "ProgrammingError" "SQL compilation error");
     e_close := Some (OtherError "OperationalError" "connection reset");
     e_today := run_date;
     e_keyfile := fun _ => None; e_authorize := None;
     e_open_by_url := fun _ => None; e_worksheet := fun _ => None;
     e_clear := fun _ => None; e_add_worksheet := fun _ => None;
     e_update := fun _ => None |}.

(** The run without the query file: the world after the configuration was
    read, and the world after the attempt to read the query. *)
Definition world_after_config : world :=
  {| w_log := [(INFO, "Loaded config.json successfully.")];
     w_trace := [FileRead "config.json"];
     w_sheets := ∅ |}.

Definition world_after_query : world :=
  {| w_log := [(INFO, "Loaded config.json successfully.")];
     w_trace := [FileRead "config.json"; FileRead "query.sql"];
     w_sheets := ∅ |}.

(** The run with the rejected query: the client of the warehouse, the world
    in which the key has been read, the world in which the client has been
    set up, and the world after the failed fetch. *)
Definition client : SnowflakeClient :=
  mkSnowflakeClient (mkURL "etl" "MIIE" "acme" "WH" "DB" "PUBLIC").

Definition world_key_read : world :=
  {| w_log := [(INFO, "Loaded config.json successfully.");
               (INFO, "Private key loaded successfully")];
     w_trace := [FileRead "config.json"; FileRead "query.sql";
                 FileRead "rsa_key.p8"];
     w_sheets := ∅ |}.

Definition world_connected : world :=
  {| w_log := [(INFO, "Loaded config.json successfully.");
               (INFO, "Private key loaded successfully");
               (INFO, "Snowflake connection established.")];
     w_trace := [FileRead "config.json"; FileRead "query.sql";
                 FileRead "rsa_key.p8"; EngineConnect;
                 Execute "USE WAREHOUSE WH;"];
     w_sheets := ∅ |}.


(** A spreadsheet whose worksheet [Report] holds older, larger content. *)
Definition old_sheets : gmap string worksheet :=
  {[ "Report" := {| ws_rows := 1000; ws_cols := 26;
                    ws_cells := {[ (0, 0) := CStr "old"; (7, 5) := CInt 42 ]} |} ]}.

End Scenario.

(** ** Vocabulary of the properties *)

(** What a cell shows after a value was sent to it: a null leaves it alone. *)
Definition shown (sent : option cell) (before : option cell) : option cell :=
  match sent with
  | Some v => if is_none v then before else Some v
  | None => before
  end.

(** The decimal digit of value [k]. *)
Definition digit_char (k : N) : ascii := ascii_of_N (48 + k).

Definition four_digits (y : N) : string :=
  (String (digit_char (y / 1000)) (String (digit_char (y / 100 mod 10))
    (String (digit_char (y / 10 mod 10)) (String (digit_char (y mod 10)) "")))).

Definition two_digits (n : N) : string :=
  String (digit_char (n / 10)) (String (digit_char (n mod 10)) "").

(** The numbers below [k]. *)
Definition below (k : N) : list N := map N.of_nat (seq 0 (N.to_nat k)).

(** ** Vocabulary of the further properties *)

(** The calls addressed to the warehouse. *)
Definition is_warehouse_call (ev : event) : bool :=
  match ev with
  | EngineConnect | Execute _ | ReadSql _ | ConnectionClose => true
  | _ => false
  end.

(** Whether a log holds a record of level ERROR. *)
Definition has_error (log : list log_record) : bool :=
  existsb (fun r => match fst r with ERROR => true | _ => false end) log.

(** The keys that [main] itself reads from the configuration. *)
Definition main_keys : list string :=
  ["RSA_KEY_PATH"; "GOOGLE_KEYFILE_PATH"; "SPREADSHEET_URL"; "SHEET_NAME"].

(** The keys that [SnowflakeClient] reads, in the order it reads them. *)
Definition snowflake_keys : list string :=
  ["SNOWFLAKE_USER"; "SNOWFLAKE_ACCOUNT"; "SNOWFLAKE_WAREHOUSE";
   "SNOWFLAKE_DATABASE"; "SNOWFLAKE_SCHEMA"].

(** The first of [keys] that the configuration lacks. *)
Definition first_missing (cfg : gmap string string) (keys : list string)
    : option string :=
  List.find (fun k => match cfg !! k with None => true | Some _ => false end) keys.

(** The characters of base64 text: the alphabet and the padding. *)
Definition is_b64_text_char (c : ascii) : bool :=
  match b64_index c with Some _ => true | None => Ascii.eqb c pad_char end.


(** ** Further runs of the scenario *)

Module Faults.


(** As [Scenario.env_ok], except that config.json holds a JSON list. *)
Definition env_config_is_list : env :=
  {| e_json := fun path =>
       if String.eqb path "config.json"
       then inr (ConfigOther "list indices must be integers or slices, not str")
       else inl (Scenario.file_not_found path);
     e_text := e_text Scenario.env_ok; e_bytes := e_bytes Scenario.env_ok;
     e_create_engine := None; e_connect := None; e_execute := fun _ => None;
     e_read_sql := e_read_sql Scenario.env_ok; e_close := None;
     e_today := Scenario.run_date;
     e_keyfile := fun _ => None; e_authorize := None;
     e_open_by_url := fun _ => None; e_worksheet := fun _ => None;
     e_clear := fun _ => None; e_add_worksheet := fun _ => None;
     e_update := fun _ => None |}.


(** The configuration of the scenario without the account of the warehouse. *)
Definition config_no_account : gmap string string :=
  delete "SNOWFLAKE_ACCOUNT" Scenario.config.

(** The world in which the key of the scenario has been read. *)
Definition world_after_key : world :=
  {| w_log := [(INFO, "Private key loaded successfully")];
     w_trace := [FileRead "rsa_key.p8"];
     w_sheets := ∅ |}.

End Faults.

(** * Properties *)

(** ** The date stamp *)

Section DateStamp.

Lemma has_column_In (name : string) (cols : list string) :
  existsb (String.eqb name) cols = true <-> In name cols.
Proof.
  rewrite existsb_exists. split.
  - intros (c & Hc & Heq). apply String.eqb_eq in Heq. now subst.
  - intros Hin. exists name. split; [assumption | apply String.eqb_refl].
Qed.

Lemma overwrite_labelled_length name v cols row :
  length (overwrite_labelled name v cols row) = length row.
Proof.
  revert row. induction cols as [|c cols IH]; intros [|x row]; simpl; auto.
Qed.

Lemma overwrite_labelled_lookup name v cols (row : list cell) j c x :
  cols !! j = Some c -> row !! j = Some x ->
  overwrite_labelled name v cols row !! j
  = Some (if String.eqb c name then v else x).
Proof.
  revert row j. induction cols as [|c' cols IH]; intros [|x' row] [|j] Hc Hx;
    simpl in *; try discriminate.
  - now inversion Hc; inversion Hx; subst.
  - now apply IH.
Qed.

Lemma below_in_range (n k : N) : (n < k)%N -> In n (below k).
Proof.
  intros Hn. apply in_map_iff. exists (N.to_nat n). split; [lia|].
  apply in_seq. lia.
Qed.

Lemma fmt_04d_digits (y : N) : (y < 10000)%N -> fmt_0d 4 y = four_digits y.
Proof.
  intros Hy.
  assert (Hall : forallb (fun y => String.eqb (fmt_0d 4 y) (four_digits y))
                   (below 10000) = true) by (vm_compute; reflexivity).
  rewrite forallb_forall in Hall. apply String.eqb_eq, Hall.
  now apply below_in_range.
Qed.

Lemma fmt_02d_digits (n : N) : (n < 100)%N -> fmt_0d 2 n = two_digits n.
Proof.
  intros Hn.
  assert (Hall : forallb (fun n => String.eqb (fmt_0d 2 n) (two_digits n))
                   (below 100) = true) by (vm_compute; reflexivity).
  rewrite forallb_forall in Hall. apply String.eqb_eq, Hall.
  now apply below_in_range.
Qed.

Lemma digit_val_char (k : N) : (k < 10)%N -> digit_val (digit_char k) = Some k.
Proof.
  intros Hk.
  assert (Hall : forallb (fun k => match digit_val (digit_char k) with
                                    | Some k' => N.eqb k' k | None => false end)
                   (below 10) = true) by (vm_compute; reflexivity).
  rewrite forallb_forall in Hall.
  specialize (Hall k (below_in_range k 10 Hk)).
  destruct (digit_val (digit_char k)); [|discriminate].
  apply N.eqb_eq in Hall. now subst.
Qed.

Lemma days_in_month_le y m : (days_in_month y m <= 31)%N.
Proof.
  unfold days_in_month.
  repeat match goal with |- context [if ?b then _ else _] => destruct b end; lia.
Qed.

Lemma valid_date_bounds y m d :
  valid_date y m d = true -> (y < 10000 /\ m < 100 /\ d < 100)%N.
Proof.
  unfold valid_date. rewrite !andb_true_iff, !N.leb_le.
  pose proof (days_in_month_le y m). lia.
Qed.

Lemma decimal4 (y : N) :
  (1000 * (y / 1000) + 100 * (y / 100 mod 10) + 10 * (y / 10 mod 10)
   + y mod 10 = y)%N.
Proof.
  replace (y / 1000)%N with (y / 10 / 10 / 10)%N by now rewrite !N.Div0.div_div.
  replace (y / 100)%N with (y / 10 / 10)%N by now rewrite N.Div0.div_div.
  pose proof (N.div_mod y 10 ltac:(lia)) as H0.
  pose proof (N.div_mod (y / 10) 10 ltac:(lia)) as H1.
  pose proof (N.div_mod (y / 10 / 10) 10 ltac:(lia)) as H2.
  set (a := (y / 10)%N) in *. set (b := (a / 10)%N) in *.
  set (c := (b / 10)%N) in *. set (y0 := (y mod 10)%N) in *.
  set (a0 := (a mod 10)%N) in *. set (b0 := (b mod 10)%N) in *.
  clearbody a b c y0 a0 b0. lia.
Qed.

(** [isoformat] writes the calendar form YYYY-MM-DD of the date. *)
Lemma isoformat_is_iso8601 (d : date) :
  parse_iso_date (isoformat d) = Some (year d, month d, day d).
Proof.
  destruct d as [y m d Hok]. unfold isoformat. cbn [year month day].
  destruct (valid_date_bounds _ _ _ Hok) as (Hy & Hm & Hd).
  rewrite fmt_04d_digits, !fmt_02d_digits by assumption.
  unfold four_digits, two_digits.
  cbv [String.append]. cbv beta iota delta [parse_iso_date].
  assert (Hdiv : forall a b : N, (b <> 0)%N -> (a mod b < b)%N)
    by (intros; now apply N.mod_lt).
  repeat (rewrite digit_val_char
            by (try (apply Hdiv; lia); apply N.Div0.div_lt_upper_bound; lia);
          cbn [mbind option_bind]).
  cbv zeta. rewrite (decimal4 y).
  rewrite <- !(N.Div0.div_mod _ 10).
  now rewrite Hok.
Qed.

Lemma date_stamp_new_column E df :
  ~ In "update_date" (df_columns df) ->
  date_stamp E df
  = {| df_columns := df_columns df ++ ["update_date"];
       df_values := map (fun row => row ++ [CStr (isoformat (e_today E))])
                        (df_values df) |}.
Proof.
  intros Hnew. unfold date_stamp, df_setitem.
  destruct (existsb _ _) eqn:Hex; [|reflexivity].
  apply has_column_In in Hex. contradiction.
Qed.

Lemma date_stamp_old_column E df :
  In "update_date" (df_columns df) ->
  date_stamp E df
  = {| df_columns := df_columns df;
       df_values := map (overwrite_labelled "update_date"
                           (CStr (isoformat (e_today E))) (df_columns df))
                        (df_values df) |}.
Proof.
  intros Hold. unfold date_stamp, df_setitem.
  apply has_column_In in Hold. now rewrite Hold.
Qed.

(** C1, amended: for a query result of R rows and C columns none of which
    is labelled update_date, the stamped table has R rows and C+1 columns,
    the added column is the last one, is labelled update_date, and holds in
    every row the same string, the run date in the ISO 8601 form
    YYYY-MM-DD. *)
Theorem date_stamp_adds_column E (df : DataFrame) :
  df_wf df ->
  ~ In "update_date" (df_columns df) ->
  let df' := date_stamp E df in
  let stamp := isoformat (e_today E) in
  df_len df' = df_len df
  /\ length (df_columns df') = length (df_columns df) + 1
  /\ df_wf df'
  /\ df_columns df' !! length (df_columns df) = Some "update_date"
  /\ (forall row, In row (df_values df') ->
        row !! length (df_columns df) = Some (CStr stamp))
  /\ parse_iso_date stamp
     = Some (year (e_today E), month (e_today E), day (e_today E)).
Proof.
  intros Hwf Hnew df' stamp. subst df' stamp.
  rewrite (date_stamp_new_column E df Hnew). unfold df_len, df_wf in *.
  cbn [df_columns df_values]. repeat split.
  - apply length_map.
  - apply length_app.
  - apply Forall_map. eapply Forall_impl; [exact Hwf|].
    intros row Hrow. cbn. rewrite !length_app, Hrow. reflexivity.
  - rewrite lookup_app_r by lia. now rewrite Nat.sub_diag.
  - intros row Hin. apply in_map_iff in Hin as (row0 & <- & Hin0).
    rewrite Forall_forall in Hwf. apply list_elem_of_In in Hin0.
    specialize (Hwf _ Hin0).
    rewrite lookup_app_r by lia. now rewrite Hwf, Nat.sub_diag.
  - apply isoformat_is_iso8601.
Qed.

(** C1 as stated fails: a result that already has a column update_date
    keeps its column count. *)
Lemma date_stamp_column_count_counterexample :
  ~ (forall E df, df_wf df ->
       df_len (date_stamp E df) = df_len df
       /\ length (df_columns (date_stamp E df)) = length (df_columns df) + 1).
Proof.
  intros Hclaim.
  destruct (Hclaim Scenario.env_ok Scenario.stamped_result) as [_ Hcols].
  - repeat constructor.
  - vm_compute in Hcols. discriminate.
Qed.

(** C10: when the query result already has a column labelled update_date,
    the date stamp keeps the column labels as they are, so the table still
    has C columns, and overwrites the values of that column where they are:
    every row keeps its length, gets the run date under update_date and
    keeps its value under every other label. *)
Theorem date_stamp_overwrites_existing E (df : DataFrame) :
  In "update_date" (df_columns df) ->
  let df' := date_stamp E df in
  df_columns df' = df_columns df
  /\ length (df_columns df') = length (df_columns df)
  /\ df_len df' = df_len df
  /\ (forall i row, df_values df !! i = Some row ->
        exists row', df_values df' !! i = Some row'
          /\ length row' = length row
          /\ forall j c x, df_columns df !! j = Some c -> row !! j = Some x ->
               row' !! j = Some (if String.eqb c "update_date"
                                 then CStr (isoformat (e_today E)) else x)).
Proof.
  intros Hold df'. subst df'.
  rewrite (date_stamp_old_column E df Hold). unfold df_len.
  cbn [df_columns df_values]. repeat split.
  - apply length_map.
  - intros i row Hrow. eexists. split; [|split].
    + rewrite list_lookup_fmap, Hrow. reflexivity.
    + apply overwrite_labelled_length.
    + intros j c x Hc Hx. now apply overwrite_labelled_lookup.
Qed.

End DateStamp.

(** ** Writing a block of values *)

Section Blocks.

Lemma write_cell_lookup pos v cells pos' :
  write_cell pos v cells !! pos'
  = if decide (pos = pos') then shown (Some v) (cells !! pos') else cells !! pos'.
Proof.
  unfold write_cell, shown. destruct (is_none v).
  - now case_decide.
  - apply lookup_insert.
Qed.

Lemma write_row_lookup row i j0 cells i' j' :
  write_row i j0 row cells !! (i', j')
  = if decide (i' = i /\ j0 <= j')
    then shown (row !! (j' - j0)) (cells !! (i', j'))
    else cells !! (i', j').
Proof.
  revert j0 cells. induction row as [|v row IH]; intros j0 cells; cbn [write_row].
  - now case_decide.
  - rewrite IH, write_cell_lookup.
    repeat case_decide; simplify_eq; try (exfalso; lia); try reflexivity.
    + replace (j' - j0) with (S (j' - S j0)) by lia. reflexivity.
    + now rewrite Nat.sub_diag.
    + assert (j0 = j') by lia. congruence.
Qed.

Lemma write_block_lookup data i0 cells i' j' :
  write_block i0 data cells !! (i', j')
  = if decide (i0 <= i')
    then shown (data !! (i' - i0) ≫= (.!! j')) (cells !! (i', j'))
    else cells !! (i', j').
Proof.
  revert i0 cells. induction data as [|row data IH]; intros i0 cells;
    cbn [write_block].
  - now case_decide.
  - rewrite IH, write_row_lookup.
    repeat case_decide; simplify_eq; try (exfalso; lia); try reflexivity.
    + replace (i' - i0) with (S (i' - S i0)) by lia. reflexivity.
    + replace (i' - i0) with 0 by lia. now rewrite Nat.sub_0_r.
Qed.

(** On an empty grid the block is all there is. *)
Lemma write_block_empty data i j :
  write_block 0 data ∅ !! (i, j) = shown (data !! i ≫= (.!! j)) None.
Proof.
  rewrite write_block_lookup, decide_True by lia.
  now rewrite Nat.sub_0_r, lookup_empty.
Qed.

Lemma str_int_nonempty n : str_int n <> EmptyString.
Proof.
  unfold str_int. intros Hs.
  assert (Hnil : N.to_uint n = Decimal.Nil).
  { pose proof (NilEmpty.usu (N.to_uint n)) as Hu. rewrite Hs in Hu.
    cbn in Hu. congruence. }
  pose proof (DecimalN.Unsigned.of_to n) as Hn. rewrite Hnil in Hn.
  cbn in Hn. subst n. discriminate.
Qed.

(** [int(str(n)) = n] *)
Lemma int_of_str_int n : int_of_str (str_int n) = Some n.
Proof.
  unfold int_of_str. pose proof (str_int_nonempty n) as Hne.
  destruct (str_int n) eqn:Hs; [contradiction|]. rewrite <- Hs.
  unfold str_int. rewrite NilEmpty.usu. cbn.
  now rewrite DecimalN.Unsigned.of_to.
Qed.

End Blocks.

(** ** Overwriting a worksheet *)

Section Overwrite.

Variable E : env.

Ltac py_unfold :=
  cbv beta iota delta
    [overwrite_with_dataframe overwrite_body locate_or_create lookup_and_clear
     create_worksheet spreadsheet_worksheet worksheet_clear
     spreadsheet_add_worksheet worksheet_update_A1
     bind ret raise try_except try_except_class try_finally emit logger
     get_sheets put_sheets may_raise of_sum api_error] in *;
  cbn [w_log w_trace w_sheets fst snd is_WorksheetNotFound] in *.

Ltac py_cases :=
  repeat (case_match; py_unfold; simplify_eq);
  repeat match goal with
         | H : context [<[_ := _]> _ !! _] |- _ => rewrite lookup_insert_eq in H
         end;
  simplify_eq; py_unfold.

Lemma sheet_data_header df j :
  shown (sheet_data df !! 0 ≫= (.!! j)) None = CStr <$> df_columns df !! j.
Proof.
  unfold sheet_data, df_header. cbn. rewrite list_lookup_fmap.
  now destruct (df_columns df !! j).
Qed.

(** C2: after a call of overwrite_with_dataframe that returns true, the
    worksheet of that name holds the column labels in its first row and the
    rows of the table below it, in order and cell for cell (a null shows as
    an empty cell), and no other cell holds a value; an existing worksheet
    was cleared before the block was written. *)
Theorem overwrite_content name (df : DataFrame) w w' :
  overwrite_with_dataframe E name df w = (inr true, w') ->
  exists ws,
    w_sheets w' !! name = Some ws
    /\ (forall j, ws_cells ws !! (0, j) = CStr <$> df_columns df !! j)
    /\ (forall i j, ws_cells ws !! (S i, j)
                    = shown (df_values df !! i ≫= (.!! j)) None)
    /\ (is_Some (w_sheets w !! name) ->
        w_trace w' = w_trace w
                     ++ [GetWorksheet name; Clear name; Update name (sheet_data df)]).
Proof.
  intros Hrun. py_unfold. rewrite !int_of_str_int in Hrun. py_cases.
  all: rewrite lookup_insert_eq; eexists; split; [reflexivity|]; cbn [ws_cells].
  all: repeat split;
    [ intros j; rewrite write_block_empty; apply sheet_data_header
    | intros i j; now rewrite write_block_empty
    | intros [sh Hsh]; try congruence ].
  now rewrite <- !app_assoc.
Qed.

(** C4: when no worksheet of the name exists, overwrite_with_dataframe
    calls add_worksheet with the sizes str(max(100, R+1)) and
    str(max(10, C+1)), and the worksheet created has exactly max(100, R+1)
    rows and max(10, C+1) columns. *)
Theorem new_worksheet_size name (df : DataFrame) w :
  w_sheets w !! name = None ->
  e_worksheet E name = None ->
  e_add_worksheet E name = None ->
  let R := N.of_nat (df_len df) in
  let C := N.of_nat (length (df_columns df)) in
  let w' := snd (overwrite_with_dataframe E name df w) in
  In (AddWorksheet name (str_int (N.max 100 (R + 1))) (str_int (N.max 10 (C + 1))))
     (w_trace w')
  /\ exists ws, w_sheets w' !! name = Some ws
       /\ ws_rows ws = N.max 100 (R + 1)
       /\ ws_cols ws = N.max 10 (C + 1).
Proof.
  intros Habsent Hlookup Hadd R C w'. subst R C w'.
  py_unfold. rewrite !int_of_str_int, Hlookup. py_unfold. rewrite Habsent.
  py_unfold. rewrite Hadd. py_unfold. rewrite Habsent. py_unfold.
  unfold new_rows, new_cols.
  destruct (e_update E name); py_unfold; rewrite ?lookup_insert_eq; py_unfold.
  2: destruct (rectangular (sheet_data df)); py_unfold.
  all: split; [rewrite !in_app_iff; cbn; now auto 10|].
  all: rewrite ?lookup_insert_eq; eexists; split; [reflexivity|];
    cbn [ws_rows ws_cols].
  all: unfold sheet_data, block_cols, df_header, df_len; cbn [length];
    rewrite ?length_map; split; lia.
Qed.

(** C9: only a WorksheetNotFound raised by the lookup leads to a new
    worksheet.  When the lookup raises it, add_worksheet is called, and a
    worksheet of the name is there afterwards if none was before and the
    service accepts the call.  Otherwise no worksheet is created;
    add_worksheet is not even called unless clear raises WorksheetNotFound;
    and when the lookup or the clear raises, whatever the exception, the
    function returns false, the worksheets are as before and no update is
    sent. *)
Theorem creation_needs_failed_lookup name (df : DataFrame) w :
  exists evs,
    w_trace (snd (overwrite_with_dataframe E name df w)) = w_trace w ++ evs
    /\ match fst (spreadsheet_worksheet E name w) with
       | inl (WorksheetNotFound _) =>
           In (AddWorksheet name (str_int (new_rows df)) (str_int (new_cols df)))
              evs
           /\ (w_sheets w !! name = None ->
               e_add_worksheet E name = None ->
               exists sh,
                 w_sheets (snd (overwrite_with_dataframe E name df w)) !! name
                 = Some sh)
       | _ =>
           (forall title,
              w_sheets w !! title = None ->
              w_sheets (snd (overwrite_with_dataframe E name df w)) !! title
              = None)
           /\ ((forall e, e_clear E name = Some e ->
                          is_WorksheetNotFound e = false) ->
               forall title rows cols, ~ In (AddWorksheet title rows cols) evs)
           /\ (forall e,
                 fst (lookup_and_clear E name w) = inl e ->
                 fst (overwrite_with_dataframe E name df w) = inr false
                 /\ w_sheets (snd (overwrite_with_dataframe E name df w))
                    = w_sheets w
                 /\ Forall (fun ev => is_update ev = false) evs)
       end.
Proof.
  py_unfold. rewrite !int_of_str_int. py_cases.
  all: try match goal with
           | Hcls : is_WorksheetNotFound ?e = _ |- _ =>
               destruct e; try discriminate Hcls
           end.
  all: rewrite <- ?app_assoc; eexists; (split; [reflexivity|]); cbn [app].
  all: repeat split.
  all: try (cbn; now auto 10).
  all: try (intros; simplify_eq; rewrite ?lookup_insert_eq; now eauto).
  all: try (intros title Htitle;
            repeat (rewrite lookup_insert_ne by congruence); exact Htitle).
  all: try (intros e' He'; simplify_eq; now repeat constructor).
  all: try (intros Hclear ? ? ? Hin; cbn in Hin;
            repeat (destruct Hin as [Hin|Hin]; [discriminate Hin|]);
            contradiction).
  all: try (intros Hclear ? ? ? Hin;
            match goal with
            | Hc : e_clear E _ = Some ?e |- _ =>
                specialize (Hclear e Hc); cbn in Hclear; discriminate Hclear
            end).
Qed.

Lemma overwrite_body_true name df w b w1 :
  overwrite_body E name df w = (inr b, w1) -> b = true.
Proof.
  intros Hrun. py_unfold. rewrite !int_of_str_int in Hrun.
  now py_cases.
Qed.

(** The outcome of [overwrite_with_dataframe] in terms of its [try] body. *)
Lemma overwrite_outcome name df w :
  overwrite_with_dataframe E name df w
  = match overwrite_body E name df w with
    | (inr _, w1) => (inr true, w1)
    | (inl e, w1) =>
        (inr false,
         snd (logger ERROR ("Failed to write data to sheet '" +:+ name +:+ "': "
                            +:+ str_exn e) w1))
    end.
Proof.
  unfold overwrite_with_dataframe, try_except.
  destruct (overwrite_body E name df w) as [[e|b] w1] eqn:Hbody.
  - reflexivity.
  - now rewrite (overwrite_body_true _ _ _ _ _ Hbody).
Qed.

(** The calls of [overwrite_with_dataframe] come after those made before. *)
Lemma overwrite_trace_extends name df w :
  exists evs,
    w_trace (snd (overwrite_with_dataframe E name df w)) = w_trace w ++ evs.
Proof.
  py_unfold. rewrite !int_of_str_int. py_cases.
  all: rewrite <- ?app_assoc; eexists; reflexivity.
Qed.

Lemma overwrite_total name df w :
  exists b w', overwrite_with_dataframe E name df w = (inr b, w').
Proof.
  rewrite overwrite_outcome.
  destruct (overwrite_body E name df w) as [[e|b] w1]; eauto.
Qed.

End Overwrite.

(** ** The orchestrator *)

Section Orchestrator.

Context `{Cryptography}.
Variable E : env.

Ltac main_unfold :=
  cbv beta iota delta
    [main load_config load_query load_private_key_base64 SnowflakeClient_init
     fetch_data close GoogleSheetsClient_init get_spreadsheet_by_url subscript
     init_world
     bind ret raise try_except try_except_class try_finally emit logger
     get_sheets put_sheets may_raise of_sum] in *;
  cbn [w_log w_trace w_sheets fst snd app] in *.

Ltac main_cases := repeat (case_match; main_unfold; simplify_eq).

Ltac members Hin :=
  cbn in Hin; repeat (destruct Hin as [Hin|Hin]; simplify_eq); try contradiction.


Lemma close_outcome db w :
  close E db w
  = (inr tt,
     match e_close E with
     | None =>
         {| w_log := w_log w ++ [(INFO, "Closing Snowflake connection.")];
            w_trace := w_trace w ++ [ConnectionClose];
            w_sheets := w_sheets w |}
     | Some e =>
         {| w_log := w_log w
                     ++ [(INFO, "Closing Snowflake connection.");
                         (ERROR, "Error closing Snowflake connection: "
                                 +:+ str_exn e)];
            w_trace := w_trace w ++ [ConnectionClose];
            w_sheets := w_sheets w |}
     end).
Proof.
  main_unfold. destruct (e_close E); main_unfold; now rewrite <- ?app_assoc.
Qed.

Lemma client_setup_calls config key w3 db w4 :
  SnowflakeClient_init E config key w3 = (inr db, w4) ->
  exists statement,
    w_trace w4 = w_trace w3 ++ [EngineConnect; Execute statement].
Proof.
  intros Hinit. main_unfold. main_cases.
  eexists. now rewrite <- !app_assoc.
Qed.

(** C5, amended: close raises nothing, whatever the connection answers,
    and a failure of the connection's close leaves an ERROR record; and
    once the constructor of SnowflakeClient has returned, its last calls
    being connect and the USE WAREHOUSE statement, main sends the query and
    then calls close, also when the query raises, in which case main raises
    the same exception after the close. *)
Theorem close_after_setup w0 query db w4 :
  reaches_fetch E w0 query db w4 ->
  (forall w,
     exists w', close E db w = (inr tt, w')
       /\ w_trace w' = w_trace w ++ [ConnectionClose]
       /\ forall e, e_close E = Some e ->
            last (w_log w')
            = Some (ERROR, "Error closing Snowflake connection: " +:+ str_exn e))
  /\ (exists pre statement,
        w_trace w4 = pre ++ [EngineConnect; Execute statement])
  /\ exists post,
       w_trace (snd (main E w0))
       = w_trace w4 ++ [ReadSql query; ConnectionClose] ++ post
       /\ forall e, e_read_sql E query = inl e ->
            fst (main E w0) = inl e /\ post = [].
Proof.
  intros Hreach. split.
  - intros w. rewrite close_outcome. eexists. split; [reflexivity|].
    split.
    + now destruct (e_close E).
    + intros e ->. cbn [w_log].
      change [(INFO, "Closing Snowflake connection.");
              (ERROR, "Error closing Snowflake connection: " +:+ str_exn e)]
        with ([(INFO, "Closing Snowflake connection.")]
              ++ [(ERROR, "Error closing Snowflake connection: " +:+ str_exn e)]).
      rewrite app_assoc. apply last_snoc.
  - destruct Hreach as [config query key w3 db w4 Hconn Hinit].
    destruct Hconn as [config query path w2' key w3 Hkl Hkey].
    destruct Hkl as [config query w2 path w2' Hkp Hpath].
    destruct Hkp as [config w1 query w2 Hq Hquery].
    destruct Hq as [config w1 Hcfg].
    split; [destruct (client_setup_calls _ _ _ _ _ Hinit); eauto|].
    cbv beta iota delta [main bind]. rewrite Hcfg, Hquery, Hpath.
    rewrite Hkey, Hinit.
    clear Hcfg Hquery Hpath Hkey Hinit.
    main_unfold. main_cases.
    all: try match goal with
         | Hrun : overwrite_with_dataframe E ?n ?d ?w = (_, ?w2) |- _ =>
             let evs := fresh "evs" in
             let Hevs := fresh "Hevs" in
             destruct (overwrite_trace_extends E n d w) as (evs & Hevs);
             rewrite Hrun in Hevs; cbn [snd w_trace] in Hevs
         end.
    all: main_unfold.
    all: try match goal with Hevs : w_trace _ = _ |- _ => rewrite Hevs end.
    all: rewrite <- ?app_assoc; cbn [app].
    all: first [ exists []; split; [reflexivity|]
               | eexists; split; [reflexivity|] ].
    all: intros e' He'; split; congruence.
Qed.

(** C6, amended: with a configuration that lacks a required key the run
    fails.  When the key is RSA_KEY_PATH or one of the five SNOWFLAKE keys
    no network call is made at all; when it is GOOGLE_KEYFILE_PATH no call
    to the spreadsheet service is made; when it is SPREADSHEET_URL the
    spreadsheet is not opened; when it is SHEET_NAME no worksheet is
    touched: the run fails before the calls that need the key, while
    calls that come earlier in main may already have been made. *)
Theorem missing_key_fails_before_use sheets cfg k :
  e_json E "config.json" = inr (ConfigDict cfg) ->
  In k required_keys ->
  cfg !! k = None ->
  (exists e, fst (main E (init_world sheets)) = inl e)
  /\ Forall (fun ev => calls_behind k ev = false)
            (w_trace (snd (main E (init_world sheets)))).
Proof.
  intros Hcfg Hk Hmissing. main_unfold. rewrite Hcfg. main_unfold.
  main_cases.
  all: members Hk; try congruence.
  all: split; [eauto | now repeat constructor].
Qed.





End Orchestrator.

(** ** PKCS#8 in DER: reading what was written *)

Section DerCodec.

Lemma byte_of_N_value n : (n < 256)%N -> Byte.to_N (byte_of_N n) = n.
Proof.
  intros Hn. unfold byte_of_N. destruct (Byte.of_N n) eqn:Hb.
  - now apply Byte.to_of_N.
  - apply Byte.of_N_None_iff in Hb. lia.
Qed.

Lemma be_value_snoc ds b :
  be_value (ds ++ [b]) = (be_value ds * 256 + Byte.to_N b)%N.
Proof. unfold be_value. now rewrite fold_left_app. Qed.

Lemma be_value_digits fuel n :
  (n < 2 ^ N.of_nat fuel)%N -> be_value (be_digits fuel n) = n.
Proof.
  revert n. induction fuel as [|fuel IH]; intros n Hn.
  - cbn in *. lia.
  - cbn [be_digits]. destruct (N.eqb_spec n 0) as [->|Hpos]; [reflexivity|].
    rewrite be_value_snoc, byte_of_N_value by (apply N.mod_lt; discriminate).
    rewrite IH.
    + rewrite N.mul_comm. symmetry. apply N.Div0.div_mod.
    + rewrite Nat2N.inj_succ, N.pow_succ_r' in Hn.
      apply N.Div0.div_lt_upper_bound. lia.
Qed.

Lemma be_digits_length fuel n k :
  (n < 256 ^ N.of_nat k)%N -> length (be_digits fuel n) <= k.
Proof.
  revert n k. induction fuel as [|fuel IH]; intros n k Hn; [cbn; lia|].
  cbn [be_digits]. destruct (N.eqb_spec n 0) as [->|Hpos]; [cbn; lia|].
  destruct k as [|k]; [cbn in Hn; lia|].
  rewrite length_app. cbn [length].
  assert (length (be_digits fuel (n / 256)) <= k); [|lia].
  apply IH. rewrite Nat2N.inj_succ, N.pow_succ_r' in Hn.
  apply N.Div0.div_lt_upper_bound. lia.
Qed.

Lemma be_digits_nonempty fuel n :
  (n <> 0)%N -> fuel <> 0 -> be_digits fuel n <> [].
Proof.
  intros Hn Hf. destruct fuel; [contradiction|]. cbn [be_digits].
  destruct (N.eqb_spec n 0); [contradiction|].
  intros Hnil. now apply app_eq_nil in Hnil as [_ ?].
Qed.

(** Lengths below 256^9 are read back. *)
Lemma parse_length_der_length n rest :
  (n < 256 ^ 9)%N -> parse_length (der_length n ++ rest) = Some (n, rest).
Proof.
  intros Hn. unfold der_length.
  destruct (N.ltb_spec n 128) as [Hshort|Hlong].
  - cbn [app parse_length]. rewrite byte_of_N_value by lia.
    destruct (N.ltb_spec n 128); [reflexivity|lia].
  - set (ds := be_digits (N.to_nat (N.size n)) n).
    assert (Hlen : length ds <= 9) by (apply be_digits_length; exact Hn).
    assert (Hne : ds <> []).
    { apply be_digits_nonempty; [lia|].
      assert (0 < N.size n)%N; [|lia].
      destruct n; [lia|]. cbn. lia. }
    assert (Hpos : 0 < length ds) by (destruct ds; [contradiction|cbn; lia]).
    cbn [app parse_length]. cbv zeta.
    rewrite byte_of_N_value by lia.
    destruct (N.ltb_spec (128 + N.of_nat (length ds)) 128); [lia|].
    replace (N.to_nat (128 + N.of_nat (length ds) - 128)) with (length ds) by lia.
    destruct (Nat.eqb_spec (length ds) 0); [lia|].
    destruct (Nat.ltb_spec (length (ds ++ rest)) (length ds)) as [Hshort|_];
      [rewrite length_app in Hshort; lia|].
    rewrite take_app_length, drop_app_length. subst ds.
    rewrite be_value_digits; [reflexivity|].
    rewrite N2Nat.id. apply N.size_gt.
Qed.

(** An element is read back, and what follows it is left. *)
Lemma parse_tlv_der_tlv tag content rest :
  (N.of_nat (length content) < 256 ^ 9)%N ->
  parse_tlv tag (der_tlv tag content ++ rest) = Some (content, rest).
Proof.
  intros Hlen. unfold der_tlv, parse_tlv. cbn [app].
  assert (Htag : Byte.eqb tag tag = true) by now apply Byte.byte_dec_lb.
  rewrite Htag, <- app_assoc, parse_length_der_length by exact Hlen.
  cbn [mbind option_bind]. rewrite Nat2N.id.
  destruct (Nat.ltb_spec (length (content ++ rest)) (length content)) as [Hshort|_];
    [rewrite length_app in Hshort; lia|].
  now rewrite take_app_length, drop_app_length.
Qed.

Lemma der_length_length n : (n < 256 ^ 9)%N -> length (der_length n) <= 10.
Proof.
  intros Hn. unfold der_length. destruct (n <? 128)%N; [cbn; lia|].
  cbn [length]. pose proof (be_digits_length (N.to_nat (N.size n)) n 9 Hn). lia.
Qed.

Lemma der_tlv_length tag content :
  (N.of_nat (length content) < 256 ^ 9)%N ->
  length (der_tlv tag content) <= 11 + length content.
Proof.
  intros Hlen. unfold der_tlv. cbn [length]. rewrite length_app.
  pose proof (der_length_length _ Hlen). lia.
Qed.

(** Reading the DER/PKCS8 bytes of a key gives the key. *)
Lemma parse_pkcs8_der_pkcs8 k :
  pki_fits k = true -> parse_pkcs8 (der_pkcs8 k) = Some k.
Proof.
  unfold pki_fits. rewrite andb_true_iff, !N.ltb_lt. intros [Halg Hkey].
  assert (Hpow : (2 ^ 63 < 256 ^ 9)%N) by (vm_compute; reflexivity).
  assert (Hone : (N.of_nat (length [Byte.x00]) < 256 ^ 9)%N)
    by (vm_compute; reflexivity).
  assert (Ha : (N.of_nat (length (pki_algorithm k)) < 256 ^ 9)%N) by lia.
  assert (Hk : (N.of_nat (length (pki_key k)) < 256 ^ 9)%N) by lia.
  unfold parse_pkcs8, der_pkcs8.
  rewrite <- (app_nil_r (der_tlv tag_sequence _)).
  rewrite parse_tlv_der_tlv.
  - cbn [mbind option_bind]. rewrite parse_tlv_der_tlv by exact Hone.
    cbn [mbind option_bind]. rewrite parse_tlv_der_tlv by exact Ha.
    cbn [mbind option_bind].
    rewrite <- (app_nil_r (der_tlv tag_octet_string _)).
    rewrite parse_tlv_der_tlv by exact Hk.
    cbn. now destruct k.
  - rewrite !length_app.
    pose proof (der_tlv_length tag_integer [Byte.x00] Hone) as L1.
    pose proof (der_tlv_length tag_sequence _ Ha) as L2.
    pose proof (der_tlv_length tag_octet_string _ Hk) as L3.
    cbn [length] in L1.
    assert (Hbig : (2 ^ 63 + 2 ^ 63 + 40 < 256 ^ 9)%N) by (vm_compute; reflexivity).
    lia.
Qed.

End DerCodec.

(** ** The private key in base64 *)

Section KeyMaterial.

Lemma b64_index_char n : (n < 64)%N -> b64_index (b64_char n) = Some n.
Proof.
  intros Hn.
  assert (Hall : forallb (fun n => match b64_index (b64_char n) with
                                    | Some k => N.eqb k n | None => false end)
                   (below 64) = true) by (vm_compute; reflexivity).
  rewrite forallb_forall in Hall.
  specialize (Hall n (below_in_range n 64 Hn)).
  destruct (b64_index (b64_char n)); [|discriminate].
  apply N.eqb_eq in Hall. now subst.
Qed.

Lemma b64_char_not_pad n : (n < 64)%N -> Ascii.eqb (b64_char n) pad_char = false.
Proof.
  intros Hn.
  assert (Hall : forallb (fun n => negb (Ascii.eqb (b64_char n) pad_char))
                   (below 64) = true) by (vm_compute; reflexivity).
  rewrite forallb_forall in Hall.
  specialize (Hall n (below_in_range n 64 Hn)).
  now apply negb_true_iff in Hall.
Qed.

Lemma sextets (n : N) :
  (n < 16777216)%N ->
  (n / 262144 < 64 /\ n / 4096 mod 64 < 64 /\ n / 64 mod 64 < 64 /\ n mod 64 < 64
   /\ n / 262144 * 262144 + n / 4096 mod 64 * 4096 + n / 64 mod 64 * 64 + n mod 64 = n)%N.
Proof.
  intros Hn.
  replace (n / 262144)%N with (n / 64 / 64 / 64)%N by now rewrite !N.Div0.div_div.
  replace (n / 4096)%N with (n / 64 / 64)%N by now rewrite N.Div0.div_div.
  pose proof (N.Div0.div_mod n 64) as H0.
  pose proof (N.Div0.div_mod (n / 64) 64) as H1.
  pose proof (N.Div0.div_mod (n / 64 / 64) 64) as H2.
  pose proof (N.mod_lt n 64 ltac:(discriminate)) as B0.
  pose proof (N.mod_lt (n / 64) 64 ltac:(discriminate)) as B1.
  pose proof (N.mod_lt (n / 64 / 64) 64 ltac:(discriminate)) as B2.
  set (a := (n / 64)%N) in *. set (b := (a / 64)%N) in *.
  set (c := (b / 64)%N) in *. set (n0 := (n mod 64)%N) in *.
  set (a0 := (a mod 64)%N) in *. set (b0 := (b mod 64)%N) in *.
  clearbody a b c n0 a0 b0. lia.
Qed.

Lemma three_bytes (a b c : N) :
  (a < 256 -> b < 256 -> c < 256 ->
   let n := a * 65536 + b * 256 + c in
   n < 16777216 /\ n / 65536 = a /\ n / 256 mod 256 = b /\ n mod 256 = c)%N.
Proof.
  intros Ha Hb Hc n. subst n. repeat split.
  - lia.
  - symmetry. apply N.div_unique with (r := (b * 256 + c)%N); lia.
  - replace ((a * 65536 + b * 256 + c) / 256)%N with (a * 256 + b)%N
      by (apply N.div_unique with (r := c); lia).
    symmetry. apply N.mod_unique with (q := a); lia.
  - symmetry. apply N.mod_unique with (q := (a * 256 + b)%N); lia.
Qed.

Lemma low_sextet_zero (a b : N) :
  ((a * 65536 + b * 256) mod 64 = 0)%N.
Proof. symmetry. apply N.mod_unique with (q := (a * 1024 + b * 4)%N); lia. Qed.

Lemma low_sextets_zero (a : N) :
  ((a * 65536) / 64 mod 64 = 0 /\ (a * 65536) mod 64 = 0)%N.
Proof.
  split.
  - replace (a * 65536 / 64)%N with (a * 1024)%N
      by (apply N.div_unique with (r := 0%N); lia).
    symmetry. apply N.mod_unique with (q := (a * 16)%N); lia.
  - symmetry. apply N.mod_unique with (q := (a * 1024)%N); lia.
Qed.

Lemma byte_lt (b : Byte.byte) : (Byte.to_N b < 256)%N.
Proof. pose proof (Byte.to_N_bounded b). lia. Qed.

Lemma list_ind3 {A} (P : list A -> Prop) :
  P [] -> (forall a, P [a]) -> (forall a b, P [a; b]) ->
  (forall a b c l, P l -> P (a :: b :: c :: l)) ->
  forall l, P l.
Proof.
  intros H0 H1 H2 H3.
  fix IH 1. intros [|a [|b [|c l]]]; [exact H0 | apply H1 | apply H2 | apply H3, IH].
Qed.

(** Decoding undoes encoding. *)
Lemma b64decode_b64encode bs : b64decode (b64encode bs) = Some bs.
Proof.
  induction bs as [|a|a b|a b c bs IH] using list_ind3.
  - reflexivity.
  - cbn [b64encode b64decode].
    pose proof (byte_lt a) as Ha.
    destruct (three_bytes (Byte.to_N a) 0 0 Ha eq_refl eq_refl) as (Hn & Hd & _).
    cbv zeta in *. rewrite !N.add_0_r in *.
    destruct (sextets _ Hn) as (S1 & S2 & S3 & S4 & Hsum).
    destruct (low_sextets_zero (Byte.to_N a)) as [Z3 Z4].
    rewrite Z3, Z4, !N.add_0_r in Hsum.
    rewrite !b64_index_char by assumption. cbn [mbind option_bind].
    rewrite Ascii.eqb_refl. cbn [N.mul].
    rewrite Hsum, Hd, Byte.of_to_N. reflexivity.
  - cbn [b64encode b64decode].
    pose proof (byte_lt a) as Ha. pose proof (byte_lt b) as Hb.
    destruct (three_bytes (Byte.to_N a) (Byte.to_N b) 0 Ha Hb eq_refl)
      as (Hn & Hd1 & Hd2 & _).
    cbv zeta in *. rewrite !N.add_0_r in *.
    destruct (sextets _ Hn) as (S1 & S2 & S3 & S4 & Hsum).
    rewrite low_sextet_zero, N.add_0_r in Hsum.
    rewrite !b64_index_char by assumption. cbn [mbind option_bind].
    rewrite Ascii.eqb_refl, b64_char_not_pad by assumption.
    cbn [mbind option_bind].
    rewrite Hsum, Hd1, Hd2, !Byte.of_to_N. reflexivity.
  - cbn [b64encode b64decode].
    pose proof (byte_lt a) as Ha. pose proof (byte_lt b) as Hb.
    pose proof (byte_lt c) as Hc.
    destruct (three_bytes (Byte.to_N a) (Byte.to_N b) (Byte.to_N c) Ha Hb Hc)
      as (Hn & Hd1 & Hd2 & Hd3).
    cbv zeta in *.
    destruct (sextets _ Hn) as (S1 & S2 & S3 & S4 & Hsum).
    rewrite !b64_index_char by assumption. cbn [mbind option_bind].
    rewrite b64_char_not_pad by assumption.
    cbn [mbind option_bind].
    rewrite Hsum, Hd1, Hd2, Hd3, !Byte.of_to_N. cbn [mbind option_bind].
    rewrite IH. reflexivity.
Qed.

(** C8: two runs of load_private_key_base64 on a key file of the same
    content return the same text, whatever else differs between the runs,
    and decoding that text from base64 gives the DER/PKCS8 bytes of the key
    that was read from the PEM file, which read as DER give that key
    again. *)
Theorem private_key_base64_roundtrip pem_reader E1 E2 path pem k w1 w2 :
  e_bytes E1 path = inr pem ->
  e_bytes E2 path = inr pem ->
  pem_reader pem = inr k ->
  pki_fits k = true ->
  exists text,
    fst (@load_private_key_base64 (pkcs8 pem_reader) E1 path w1) = inr text
    /\ fst (@load_private_key_base64 (pkcs8 pem_reader) E2 path w2) = inr text
    /\ b64decode text = Some (der_pkcs8 k)
    /\ b64decode text ≫= parse_pkcs8 = Some k.
Proof.
  intros Hfile1 Hfile2 Hpem Hfits.
  exists (b64encode (der_pkcs8 k)).
  unfold load_private_key_base64, try_except, bind, emit, of_sum, logger, ret.
  cbn [load_pem_private_key private_bytes_der_pkcs8 pkcs8].
  rewrite Hfile1, Hfile2, Hpem. cbn [fst].
  rewrite b64decode_b64encode. cbn [mbind option_bind].
  repeat split. now apply parse_pkcs8_der_pkcs8.
Qed.

End KeyMaterial.

(** ** Runs that contradict the claims as stated *)

Section Counterexamples.

(** C6 as stated fails: without the key SHEET_NAME the run fails only after
    the warehouse and the spreadsheet service have been called. *)
Lemma missing_sheet_name_counterexample :
  ~ (forall (C : Cryptography) E sheets cfg k,
       e_json E "config.json" = inr (ConfigDict cfg) ->
       In k required_keys ->
       cfg !! k = None ->
       Forall (fun ev => is_network ev = false)
              (w_trace (snd (main E (init_world sheets))))).
Proof.
  intros Hclaim.
  specialize (Hclaim Scenario.crypto Scenario.env_no_sheet_name ∅
                (delete "SHEET_NAME" Scenario.config) "SHEET_NAME"
                eq_refl).
  assert (Hall : Forall (fun ev => is_network ev = false)
                   (w_trace (snd (@main Scenario.crypto Scenario.env_no_sheet_name
                                    (init_world ∅))))).
  { apply Hclaim; [cbn; auto 10 | apply lookup_delete_eq]. }
  vm_compute in Hall.
  inversion Hall as [|? ? _ Hall1]; subst.
  inversion Hall1 as [|? ? _ Hall2]; subst.
  inversion Hall2 as [|? ? _ Hall3]; subst.
  inversion Hall3 as [|? ? Hconnect _]; subst.
  discriminate Hconnect.
Qed.


(** C5 as stated fails: when the warehouse refuses the USE WAREHOUSE
    statement, the connection has been opened and main ends without a call
    of close. *)
Lemma failed_setup_counterexample :
  ~ (forall (C : Cryptography) E sheets,
       In EngineConnect (w_trace (snd (main E (init_world sheets)))) ->
       e_connect E = None ->
       In ConnectionClose (w_trace (snd (main E (init_world sheets))))).
Proof.
  intros Hclaim.
  specialize (Hclaim Scenario.crypto Scenario.env_use_warehouse_fails ∅).
  assert (Hclose : In ConnectionClose
                     (w_trace (snd (@main Scenario.crypto
                                      Scenario.env_use_warehouse_fails
                                      (init_world ∅))))).
  { apply Hclaim; [vm_compute; auto 10 | reflexivity]. }
  vm_compute in Hclose.
  repeat (destruct Hclose as [Hclose|Hclose]; [discriminate Hclose|]).
  contradiction.
Qed.

End Counterexamples.

(** ** More on the date stamp *)

Section DateStampData.

Lemma overwrite_labelled_idem name v cols row :
  overwrite_labelled name v cols (overwrite_labelled name v cols row)
  = overwrite_labelled name v cols row.
Proof.
  revert row. induction cols as [|c cols IH]; intros [|x row]; cbn; auto.
  rewrite IH. now destruct (String.eqb c name).
Qed.

Lemma overwrite_labelled_appended name v cols row :
  ~ In name cols -> length row = length cols ->
  overwrite_labelled name v (cols ++ [name]) (row ++ [v]) = row ++ [v].
Proof.
  revert row. induction cols as [|c cols IH]; intros [|x row] Hnew Hlen;
    try discriminate Hlen; cbn.
  - now rewrite String.eqb_refl.
  - destruct (String.eqb c name) eqn:Heq.
    + apply String.eqb_eq in Heq. exfalso. apply Hnew. now left.
    + f_equal. apply IH; [|now injection Hlen].
      intros Hin. apply Hnew. now right.
Qed.

(** X1: the date stamp keeps the query data.  The stamped table is
    rectangular, has the rows of the result in the same order, and every
    value under a label other than update_date is where it was. *)
Theorem date_stamp_keeps_query_data E (df : DataFrame) :
  df_wf df ->
  df_wf (date_stamp E df)
  /\ df_len (date_stamp E df) = df_len df
  /\ forall i row j c x,
       df_values df !! i = Some row ->
       df_columns df !! j = Some c ->
       c <> "update_date" ->
       row !! j = Some x ->
       exists row', df_values (date_stamp E df) !! i = Some row'
                    /\ df_columns (date_stamp E df) !! j = Some c
                    /\ row' !! j = Some x.
Proof.
  intros Hwf. unfold df_wf, df_len in *.
  destruct (in_dec string_dec "update_date" (df_columns df)) as [Hold|Hnew].
  - rewrite (date_stamp_old_column E df Hold). cbn [df_columns df_values].
    repeat split.
    + apply Forall_map. eapply Forall_impl; [exact Hwf|].
      intros row Hrow. cbn. now rewrite overwrite_labelled_length.
    + apply length_map.
    + intros i row j c x Hrow Hc Hne Hx. eexists. split; [|split].
      * rewrite list_lookup_fmap, Hrow. reflexivity.
      * exact Hc.
      * rewrite (overwrite_labelled_lookup _ _ _ _ _ _ _ Hc Hx).
        apply String.eqb_neq in Hne. now rewrite Hne.
  - rewrite (date_stamp_new_column E df Hnew). cbn [df_columns df_values].
    repeat split.
    + apply Forall_map. eapply Forall_impl; [exact Hwf|].
      intros row Hrow. cbn. rewrite !length_app, Hrow. reflexivity.
    + apply length_map.
    + intros i row j c x Hrow Hc Hne Hx. eexists. split; [|split].
      * rewrite list_lookup_fmap, Hrow. reflexivity.
      * apply lookup_app_l_Some. exact Hc.
      * apply lookup_app_l_Some. exact Hx.
Qed.

(** X2: stamping a stamped table changes nothing: the second stamp finds
    the column update_date and writes the same date over it. *)
Theorem date_stamp_idempotent E (df : DataFrame) :
  df_wf df ->
  date_stamp E (date_stamp E df) = date_stamp E df.
Proof.
  intros Hwf. unfold df_wf in Hwf.
  destruct (in_dec string_dec "update_date" (df_columns df)) as [Hold|Hnew].
  - rewrite (date_stamp_old_column E df Hold).
    rewrite date_stamp_old_column by exact Hold. cbn [df_columns df_values].
    f_equal. rewrite map_map. apply map_ext. intros row.
    apply overwrite_labelled_idem.
  - rewrite (date_stamp_new_column E df Hnew).
    rewrite date_stamp_old_column by (cbn; apply in_app_iff; cbn; auto).
    cbn [df_columns df_values]. f_equal. rewrite map_map.
    apply map_ext_in. intros row Hrow.
    apply overwrite_labelled_appended; [exact Hnew|].
    rewrite Forall_forall in Hwf. apply Hwf. now apply list_elem_of_In.
Qed.

End DateStampData.

(** ** More on overwriting a worksheet *)

Section OverwriteMore.

Variable E : env.

Ltac ow_unfold :=
  cbv beta iota delta
    [overwrite_with_dataframe overwrite_body locate_or_create lookup_and_clear
     create_worksheet spreadsheet_worksheet worksheet_clear
     spreadsheet_add_worksheet worksheet_update_A1
     bind ret raise try_except try_except_class try_finally emit logger
     get_sheets put_sheets may_raise of_sum api_error] in *;
  cbn [w_log w_trace w_sheets fst snd is_WorksheetNotFound] in *.

Ltac ow_cases :=
  repeat (case_match; ow_unfold; simplify_eq);
  repeat match goal with
         | H : context [<[_ := _]> _ !! _] |- _ => rewrite lookup_insert_eq in H
         end;
  simplify_eq; ow_unfold.

(** The calls of one [overwrite_with_dataframe], in order. *)
Lemma overwrite_calls name df w :
  exists evs,
    w_trace (snd (overwrite_with_dataframe E name df w)) = w_trace w ++ evs
    /\ let add := AddWorksheet name (str_int (new_rows df)) (str_int (new_cols df)) in
       let upd := Update name (sheet_data df) in
       In evs [ [GetWorksheet name];
                [GetWorksheet name; Clear name];
                [GetWorksheet name; Clear name; upd];
                [GetWorksheet name; add];
                [GetWorksheet name; add; upd];
                [GetWorksheet name; Clear name; add] ].
Proof.
  ow_unfold. rewrite !int_of_str_int. ow_cases.
  all: rewrite <- ?app_assoc; eexists; split; [reflexivity|]; cbn; auto 10.
Qed.

(** X5: overwrite_with_dataframe sends at most one update; it is its last
    call, it carries the header row and the rows of the table for the
    worksheet of the given name, and the call just before it is the clear or
    the add_worksheet of that worksheet. *)
Theorem update_follows_clear_or_create name (df : DataFrame) w :
  exists evs,
    w_trace (snd (overwrite_with_dataframe E name df w)) = w_trace w ++ evs
    /\ forall pre title data post,
         evs = pre ++ Update title data :: post ->
         post = [] /\ title = name /\ data = sheet_data df
         /\ (last pre = Some (Clear name)
             \/ exists rows cols, last pre = Some (AddWorksheet name rows cols)).
Proof.
  destruct (overwrite_calls name df w) as (evs & Htrace & Hshape).
  exists evs. split; [exact Htrace|].
  intros pre title data post Hevs. cbv zeta in Hshape. cbn in Hshape.
  repeat (destruct Hshape as [Hshape|Hshape]); try contradiction; subst evs.
  all: destruct pre as [|? [|? [|? [|? pre]]]]; cbn in Hevs; simplify_eq;
    cbn; eauto 10.
Qed.

(** Worksheets of another title are out of reach. *)
Lemma overwrite_frame name df w title :
  title <> name ->
  w_sheets (snd (overwrite_with_dataframe E name df w)) !! title
  = w_sheets w !! title.
Proof.
  intros Hne. ow_unfold. rewrite !int_of_str_int. ow_cases.
  all: rewrite ?lookup_insert_ne by congruence; reflexivity.
Qed.

(** X3: whatever its outcome, overwrite_with_dataframe leaves every
    worksheet of another title as it is: its lookup, clear, add_worksheet
    and update all go to the worksheet of the given name. *)
Theorem other_worksheets_untouched name (df : DataFrame) w title :
  title <> name ->
  w_sheets (snd (overwrite_with_dataframe E name df w)) !! title
  = w_sheets w !! title.
Proof. apply overwrite_frame. Qed.


(** X6: the grid asked for a new worksheet holds the block that is written:
    for a rectangular table, the worksheet that overwrite_with_dataframe
    creates has at least as many rows as the block (header and rows) and
    more columns than any row of the block is long. *)
Theorem created_grid_holds_block name (df : DataFrame) w :
  df_wf df ->
  w_sheets w !! name = None ->
  e_worksheet E name = None ->
  e_add_worksheet E name = None ->
  exists ws,
    w_sheets (snd (overwrite_with_dataframe E name df w)) !! name = Some ws
    /\ (N.of_nat (length (sheet_data df)) <= ws_rows ws)%N
    /\ Forall (fun row => (N.of_nat (length row) < ws_cols ws)%N) (sheet_data df).
Proof.
  intros Hwf Habsent Hlookup Hadd. unfold df_wf in Hwf.
  assert (Hfit : (N.of_nat (length (sheet_data df)) <= new_rows df)%N
                 /\ Forall (fun row => (N.of_nat (length row) < new_cols df)%N)
                           (sheet_data df)).
  { unfold sheet_data, new_rows, new_cols, df_len, df_header. split.
    - cbn [length]. lia.
    - constructor.
      + rewrite length_map. lia.
      + eapply Forall_impl; [exact Hwf|]. intros row Hrow. cbn in Hrow. lia. }
  destruct Hfit as [Hrows Hcols].
  ow_unfold. rewrite !int_of_str_int, Hlookup. ow_unfold. rewrite Habsent.
  ow_unfold. rewrite Hadd. ow_unfold. rewrite Habsent. ow_unfold.
  destruct (e_update E name); ow_unfold; rewrite ?lookup_insert_eq; ow_unfold.
  2: destruct (rectangular (sheet_data df)); ow_unfold.
  all: rewrite ?lookup_insert_eq; eexists; split; [reflexivity|];
    cbn [ws_rows ws_cols].
  all: split; [lia|].
  all: eapply Forall_impl; [exact Hcols|]; intros row Hrow; cbn in Hrow; lia.
Qed.

(** After a call that returns true the worksheet holds the block, written
    on an empty grid. *)
Lemma overwrite_true_cells name df w w' :
  overwrite_with_dataframe E name df w = (inr true, w') ->
  exists ws, w_sheets w' !! name = Some ws
             /\ ws_cells ws = write_block 0 (sheet_data df) ∅.
Proof.
  intros Hrun. ow_unfold. rewrite !int_of_str_int in Hrun. ow_cases.
  all: rewrite lookup_insert_eq; eexists; split; reflexivity.
Qed.

(** The calls of [overwrite_with_dataframe] are worksheet calls. *)
Lemma overwrite_calls_network name df w :
  exists evs,
    w_trace (snd (overwrite_with_dataframe E name df w)) = w_trace w ++ evs
    /\ List.filter is_network evs = evs
    /\ List.filter is_sheets_call evs = evs
    /\ List.filter is_warehouse_call evs = [].
Proof.
  destruct (overwrite_calls name df w) as (evs & Htrace & Hshape).
  exists evs. split; [exact Htrace|]. cbv zeta in Hshape. cbn in Hshape.
  repeat (destruct Hshape as [Hshape|Hshape]); try contradiction; subst evs.
  all: repeat split; reflexivity.
Qed.

End OverwriteMore.

(** ** More on the orchestrator *)

Section OrchestratorMore.

Context `{Cryptography}.
Variable E : env.

Ltac run_unfold :=
  cbv beta iota delta
    [main load_config load_query load_private_key_base64 SnowflakeClient_init
     fetch_data close GoogleSheetsClient_init get_spreadsheet_by_url subscript
     init_world
     bind ret raise try_except try_except_class try_finally emit logger
     get_sheets put_sheets may_raise of_sum] in *;
  cbn [w_log w_trace w_sheets fst snd app] in *.

Ltac run_cases :=
  repeat (case_match; run_unfold; simplify_eq);
  try match goal with
      | Hrun : overwrite_with_dataframe E ?n ?d ?w = (inl _, _) |- _ =>
          let Hb := fresh in
          destruct (overwrite_total E n d w) as (? & ? & Hb);
          rewrite Hb in Hrun; discriminate Hrun
      end.

(** X7: a run of main that ends with an exception has not touched the
    spreadsheet: no worksheet call was made and the worksheets are as they
    were. *)
Theorem failed_run_leaves_spreadsheet sheets e :
  fst (main E (init_world sheets)) = inl e ->
  w_sheets (snd (main E (init_world sheets))) = sheets
  /\ Forall (fun ev => is_worksheet_call ev = false)
            (w_trace (snd (main E (init_world sheets)))).
Proof.
  run_unfold. run_cases.
  all: intros Hfail; try discriminate Hfail; run_unfold.
  all: split; [reflexivity | now repeat constructor].
Qed.

(** X8: when main ends with the record "Data successfully pushed to Google
    Sheets.", the worksheet named by SHEET_NAME holds the stamped query
    result and nothing else: the labels of the stamped table in its first
    row, the rows of the stamped table below, cell for cell. *)
Theorem pushed_table_is_stamped_result sheets cfg query df name :
  e_json E "config.json" = inr (ConfigDict cfg) ->
  e_text E "query.sql" = inr query ->
  e_read_sql E query = inr df ->
  cfg !! "SHEET_NAME" = Some name ->
  last (w_log (snd (main E (init_world sheets))))
  = Some (INFO, "Data successfully pushed to Google Sheets.") ->
  exists ws,
    w_sheets (snd (main E (init_world sheets))) !! name = Some ws
    /\ (forall j, ws_cells ws !! (0, j)
                  = CStr <$> df_columns (date_stamp E df) !! j)
    /\ (forall i j, ws_cells ws !! (S i, j)
                    = shown (df_values (date_stamp E df) !! i ≫= (.!! j)) None).
Proof.
  intros Hcfg Hquery Hdf Hname. run_unfold.
  rewrite Hcfg. run_unfold. rewrite Hquery. run_unfold.
  rewrite ?Hdf, ?Hname. run_cases.
  all: try (intros Hlast; cbn in Hlast; discriminate Hlast).
  all: rewrite last_snoc; intros Hlast; try discriminate Hlast.
  all: match goal with
       | Hrun : overwrite_with_dataframe E _ _ _ = (inr true, _) |- _ =>
           destruct (overwrite_true_cells E _ _ _ _ Hrun) as (ws & Hws & Hcells)
       end.
  all: exists ws; split; [exact Hws|]; rewrite Hcells; split.
  all: intros; rewrite write_block_empty; try apply sheet_data_header;
    reflexivity.
Qed.

(** X9: the failures that end main without an ERROR record are the read of
    the query file and a subscript of the configuration that main itself
    evaluates: a KeyError for a key that the configuration lacks, or a
    TypeError when what was loaded is not a dict; every other failing run
    has an ERROR record. *)
Theorem unlogged_failures sheets e :
  fst (main E (init_world sheets)) = inl e ->
  has_error (w_log (snd (main E (init_world sheets)))) = false ->
  exists config,
    e_json E "config.json" = inr config
    /\ (e_text E "query.sql" = inl e
        \/ exists k,
             In k main_keys
             /\ match config with
                | ConfigDict d => d !! k = None /\ e = KeyError k
                | ConfigOther type_error => e = OtherError "TypeError" type_error
                end).
Proof.
  run_unfold. run_cases.
  all: intros Hfail Hlog; try discriminate Hfail; run_unfold;
    cbn in Hlog; try discriminate Hlog; simplify_eq.
  all: eexists; split; [reflexivity|].
  all: first [ left; reflexivity
             | right; eexists; split; [|split; [eassumption | reflexivity]];
               cbn; now auto 10
             | right; exists "RSA_KEY_PATH"; split; [cbn; now auto|reflexivity] ].
Qed.

(** X10: in every run of main the calls to the warehouse are an initial
    part of connect, USE WAREHOUSE, query, close, with close whenever the
    query was sent; all of them come before the calls to the spreadsheet
    service, and close has been called before the first of these, whether
    or not the close of the connection succeeded. *)
Theorem warehouse_before_spreadsheet sheets :
  let trace := w_trace (snd (main E (init_world sheets))) in
  (exists statement query,
     In (List.filter is_warehouse_call trace)
        [ []; [EngineConnect]; [EngineConnect; Execute statement];
          [EngineConnect; Execute statement; ReadSql query; ConnectionClose] ])
  /\ List.filter is_network trace
     = List.filter is_warehouse_call trace ++ List.filter is_sheets_call trace
  /\ (List.filter is_sheets_call trace = []
      \/ last (List.filter is_warehouse_call trace) = Some ConnectionClose).
Proof.
  cbv zeta. run_unfold. run_cases.
  all: try match goal with
       | Hrun : overwrite_with_dataframe E ?n ?d ?w = (_, ?w2) |- _ =>
           let evs := fresh "evs" in
           let Hevs := fresh "Hevs" in
           destruct (overwrite_calls_network E n d w)
             as (evs & Hevs & Hnet & Hsheets & Hwh);
           rewrite Hrun in Hevs; cbn [snd w_trace] in Hevs
       end.
  all: run_unfold.
  all: try match goal with Hevs : w_trace _ = _ |- _ => rewrite Hevs end.
  all: cbn.
  all: try match goal with
       | Hnet : List.filter is_network ?evs = ?evs,
         Hsheets : List.filter is_sheets_call ?evs = ?evs,
         Hwh : List.filter is_warehouse_call ?evs = [] |- _ =>
           rewrite Hnet, Hsheets, Hwh
       end.
  all: split; [|split; [reflexivity | auto]].
  all: first [ exists "", ""; cbn; now auto 10
             | eexists; exists ""; cbn; now eauto 10
             | do 2 eexists; cbn; now eauto 10 ].
Qed.

(** X11: when the configuration lacks one of the keys that SnowflakeClient
    reads, its constructor raises the KeyError of the first one it lacks, in
    the order user, account, warehouse, database, schema, after an ERROR
    record, and neither creates the engine nor connects. *)
Theorem client_reports_first_missing_key cfg private_key_base64 w k :
  first_missing cfg snowflake_keys = Some k ->
  SnowflakeClient_init E (ConfigDict cfg) private_key_base64 w
  = (inl (KeyError k),
     {| w_log := w_log w ++ [(ERROR, "Error initializing Snowflake: "
                                     +:+ str_exn (KeyError k))];
        w_trace := w_trace w;
        w_sheets := w_sheets w |}).
Proof.
  unfold first_missing, snowflake_keys. cbn [find]. intros Hfirst.
  run_unfold. run_cases; reflexivity.
Qed.

(** X13: a run of main changes no worksheet but the one that the
    configuration names under SHEET_NAME. *)
Theorem only_the_named_worksheet_changes sheets cfg title :
  e_json E "config.json" = inr (ConfigDict cfg) ->
  cfg !! "SHEET_NAME" <> Some title ->
  w_sheets (snd (main E (init_world sheets))) !! title = sheets !! title.
Proof.
  intros Hcfg Hother. run_unfold. rewrite Hcfg. run_unfold. run_cases.
  all: try reflexivity.
  all: match goal with
       | Hrun : overwrite_with_dataframe E ?n ?d ?w = (_, ?w2) |- _ =>
           let Hfr := fresh in
           pose proof (overwrite_frame E n d w title) as Hfr;
           rewrite Hrun in Hfr; cbn [snd w_sheets] in Hfr; apply Hfr; congruence
       end.
Qed.


End OrchestratorMore.

(** ** More on the private key in base64 *)

Section KeyText.

Lemma b64_char_is_text n : (n < 64)%N -> is_b64_text_char (b64_char n) = true.
Proof.
  intros Hn. unfold is_b64_text_char. now rewrite b64_index_char.
Qed.

Lemma pad_char_is_text : is_b64_text_char pad_char = true.
Proof. reflexivity. Qed.

Lemma sextets_of_bytes (a b c : N) :
  (a < 256 -> b < 256 -> c < 256 ->
   let n := a * 65536 + b * 256 + c in
   n / 262144 < 64 /\ n / 4096 mod 64 < 64 /\ n / 64 mod 64 < 64 /\ n mod 64 < 64)%N.
Proof.
  intros Ha Hb Hc n.
  destruct (sextets n) as (S1 & S2 & S3 & S4 & _); [subst n; lia | auto].
Qed.

Lemma b64encode_text bs :
  forallb is_b64_text_char (list_ascii_of_string (b64encode bs)) = true.
Proof.
  induction bs as [|a|a b|a b c bs IH] using list_ind3.
  - reflexivity.
  - cbn [b64encode]. cbv zeta.
    destruct (sextets_of_bytes (Byte.to_N a) 0 0 (byte_lt a) eq_refl eq_refl)
      as (S1 & S2 & _). cbv zeta in S1, S2. rewrite !N.add_0_r in S1, S2.
    cbn [list_ascii_of_string forallb].
    now rewrite !b64_char_is_text, pad_char_is_text by assumption.
  - cbn [b64encode]. cbv zeta.
    destruct (sextets_of_bytes (Byte.to_N a) (Byte.to_N b) 0
                (byte_lt a) (byte_lt b) eq_refl) as (S1 & S2 & S3 & _).
    cbv zeta in S1, S2, S3. rewrite !N.add_0_r in S1, S2, S3.
    cbn [list_ascii_of_string forallb].
    now rewrite !b64_char_is_text, pad_char_is_text by assumption.
  - cbn [b64encode]. cbv zeta.
    destruct (sextets_of_bytes (Byte.to_N a) (Byte.to_N b) (Byte.to_N c)
                (byte_lt a) (byte_lt b) (byte_lt c)) as (S1 & S2 & S3 & S4).
    cbv zeta in S1, S2, S3, S4.
    cbn [list_ascii_of_string forallb].
    now rewrite !b64_char_is_text, IH by assumption.
Qed.

Lemma b64encode_length bs :
  String.length (b64encode bs) = 4 * ((length bs + 2) / 3).
Proof.
  induction bs as [|a|a b|a b c bs IH] using list_ind3; try reflexivity.
  cbn [b64encode String.length length]. rewrite IH.
  replace (S (S (S (length bs))) + 2) with (length bs + 2 + 1 * 3) by lia.
  rewrite Nat.div_add by discriminate. lia.
Qed.

Context `{Cryptography}.

(** X12: what load_private_key_base64 returns is the base64 text of the
    DER/PKCS8 bytes of the key in the file: 4 characters for every 3 bytes,
    rounded up, all of them from the base64 alphabet or the padding, and
    the one log record of the call is the fixed "Private key loaded
    successfully", which holds nothing of the key. *)
Theorem private_key_text_is_base64 E path w text w' :
  load_private_key_base64 E path w = (inr text, w') ->
  exists pem key,
    e_bytes E path = inr pem
    /\ load_pem_private_key pem = inr key
    /\ text = b64encode (private_bytes_der_pkcs8 key)
    /\ String.length text = 4 * ((length (private_bytes_der_pkcs8 key) + 2) / 3)
    /\ forallb is_b64_text_char (list_ascii_of_string text) = true
    /\ w_log w' = w_log w ++ [(INFO, "Private key loaded successfully")].
Proof.
  unfold load_private_key_base64, try_except, bind, emit, of_sum, logger,
    ret, raise.
  intros Hrun. repeat (case_match; simplify_eq).
  do 2 eexists. repeat split; try eassumption.
  - apply b64encode_length.
  - apply b64encode_text.
Qed.

End KeyText.

(** ** The theorems at the end-to-end scenario *)

(** The run of the scenario: main returns, and the block sent to the
    worksheet [Report] is the header with [update_date], then the two rows
    with the run date. *)
Example end_to_end_run :
  fst (@main Scenario.crypto Scenario.env_ok (init_world Scenario.old_sheets))
  = inr tt
  /\ last (w_trace (snd (@main Scenario.crypto Scenario.env_ok
                           (init_world Scenario.old_sheets))))
     = Some (Update "Report"
               [[CStr "id"; CStr "amount"; CStr "update_date"];
                [CInt 1; CInt 10; CStr "2024-01-01"];
                [CInt 2; CInt 20; CStr "2024-01-01"]]).
Proof. vm_compute. split; reflexivity. Qed.

(** When the set-up of the warehouse client fails after the connection was
    opened, main ends before its [try]: the trace has no close. *)
Example failed_setup_is_not_closed :
  w_trace (snd (@main Scenario.crypto Scenario.env_use_warehouse_fails
                  (init_world ∅)))
  = [FileRead "config.json"; FileRead "query.sql"; FileRead "rsa_key.p8";
     EngineConnect; Execute "USE WAREHOUSE WH;"].
Proof. vm_compute. reflexivity. Qed.

(** When [clear] answers [WorksheetNotFound] for a worksheet that exists,
    the handler asks for a worksheet of a title that is taken: the request
    is refused, the method returns [False] and no worksheet is added. *)
Example refused_creation_run :
  fst (overwrite_with_dataframe Scenario.env_clear_raises "Report"
         Scenario.query_result (init_world Scenario.old_sheets)) = inr false
  /\ w_trace (snd (overwrite_with_dataframe Scenario.env_clear_raises "Report"
                     Scenario.query_result (init_world Scenario.old_sheets)))
     = [GetWorksheet "Report"; Clear "Report"; AddWorksheet "Report" "100" "10"]
  /\ w_sheets (snd (overwrite_with_dataframe Scenario.env_clear_raises "Report"
                      Scenario.query_result (init_world Scenario.old_sheets)))
     = Scenario.old_sheets.
Proof. vm_compute. repeat split; reflexivity. Qed.

(** When config.json holds a list, the subscript of main raises a
    [TypeError] and no record of level ERROR is written. *)
Example config_list_run :
  fst (@main Scenario.crypto Faults.env_config_is_list (init_world ∅))
  = inl (OtherError "TypeError"
           "list indices must be integers or slices, not str")
  /\ w_log (snd (@main Scenario.crypto Faults.env_config_is_list
                   (init_world ∅)))
     = [(INFO, "Loaded config.json successfully.")].
Proof. vm_compute. split; reflexivity. Qed.

(** The key text of the scenario on the PKCS#8 codec, and a key whose body
    takes the long form of the length. *)
Example pkcs8_key_text :
  fst (@load_private_key_base64 (pkcs8 Scenario.pem_reader) Scenario.env_ok
         "rsa_key.p8" (init_world ∅))
  = inr "MBkCAQAwDQYJKoZIhvcNAQEBBQAEBTADAgEA".
Proof. vm_compute. reflexivity. Qed.

Example pkcs8_long_key :
  take 4 (der_pkcs8 Scenario.long_key_info)
  = [Byte.x30; Byte.x82; Byte.x01; Byte.x42]
  /\ parse_pkcs8 (der_pkcs8 Scenario.long_key_info)
     = Some Scenario.long_key_info.
Proof. vm_compute. split; reflexivity. Qed.

Import Scenario.

(** The run with the rejected query reaches the fetch with the client set
    up. *)
Lemma bad_query_run_reaches_fetch :
  @reaches_fetch crypto env_bad_query (init_world ∅)
    "SELECT id, amount FROM t" client world_connected.
Proof.
  apply (@reaches_fetch_intro crypto env_bad_query (init_world ∅)
           (ConfigDict config) "SELECT id, amount FROM t" "MIIE"
           world_key_read client world_connected);
    [|vm_compute; reflexivity].
  apply (@reaches_connect_intro crypto env_bad_query (init_world ∅)
           (ConfigDict config) "SELECT id, amount FROM t" "rsa_key.p8"
           world_after_query "MIIE" world_key_read);
    [|vm_compute; reflexivity].
  apply (reaches_key_load_intro env_bad_query (init_world ∅)
           (ConfigDict config) "SELECT id, amount FROM t" world_after_query
           "rsa_key.p8" world_after_query);
    [|vm_compute; reflexivity].
  apply (reaches_key_path_intro env_bad_query (init_world ∅)
           (ConfigDict config) world_after_config "SELECT id, amount FROM t"
           world_after_query);
    [|vm_compute; reflexivity].
  apply (reaches_query_intro env_bad_query (init_world ∅)
           (ConfigDict config) world_after_config).
  vm_compute. reflexivity.
Defined.

Lemma date_stamp_adds_column_witness :
  let df' := date_stamp env_ok query_result in
  let stamp := isoformat (e_today env_ok) in
  df_len df' = df_len query_result
  /\ length (df_columns df') = length (df_columns query_result) + 1
  /\ df_wf df'
  /\ df_columns df' !! length (df_columns query_result) = Some "update_date"
  /\ (forall row, In row (df_values df') ->
        row !! length (df_columns query_result) = Some (CStr stamp))
  /\ parse_iso_date stamp
     = Some (year (e_today env_ok), month (e_today env_ok), day (e_today env_ok)).
Proof.
  apply (date_stamp_adds_column env_ok query_result).
  - repeat constructor.
  - vm_compute. intros [Hin|[Hin|[]]]; discriminate Hin.
Defined.

Lemma date_stamp_overwrites_existing_witness :
  let df' := date_stamp env_ok stamped_result in
  df_columns df' = df_columns stamped_result
  /\ length (df_columns df') = length (df_columns stamped_result)
  /\ df_len df' = df_len stamped_result
  /\ (forall i row, df_values stamped_result !! i = Some row ->
        exists row', df_values df' !! i = Some row'
          /\ length row' = length row
          /\ forall j c x, df_columns stamped_result !! j = Some c ->
               row !! j = Some x ->
               row' !! j = Some (if String.eqb c "update_date"
                                 then CStr (isoformat (e_today env_ok)) else x)).
Proof.
  apply (date_stamp_overwrites_existing env_ok stamped_result).
  vm_compute. auto.
Defined.

Lemma overwrite_content_witness :
  exists ws,
    w_sheets (snd (overwrite_with_dataframe env_ok "Report" query_result
                     (init_world old_sheets))) !! "Report" = Some ws
    /\ (forall j, ws_cells ws !! (0, j) = CStr <$> df_columns query_result !! j)
    /\ (forall i j, ws_cells ws !! (S i, j)
                    = shown (df_values query_result !! i ≫= (.!! j)) None)
    /\ (is_Some (w_sheets (init_world old_sheets) !! "Report") ->
        w_trace (snd (overwrite_with_dataframe env_ok "Report" query_result
                        (init_world old_sheets)))
        = w_trace (init_world old_sheets)
          ++ [GetWorksheet "Report"; Clear "Report";
              Update "Report" (sheet_data query_result)]).
Proof.
  apply (overwrite_content env_ok "Report" query_result (init_world old_sheets)).
  vm_compute. reflexivity.
Defined.

Lemma new_worksheet_size_witness :
  let R := N.of_nat (df_len query_result) in
  let C := N.of_nat (length (df_columns query_result)) in
  let w' := snd (overwrite_with_dataframe env_ok "Report" query_result
                   (init_world ∅)) in
  In (AddWorksheet "Report" (str_int (N.max 100 (R + 1)))
                   (str_int (N.max 10 (C + 1))))
     (w_trace w')
  /\ exists ws, w_sheets w' !! "Report" = Some ws
       /\ ws_rows ws = N.max 100 (R + 1)
       /\ ws_cols ws = N.max 10 (C + 1).
Proof.
  apply (new_worksheet_size env_ok "Report" query_result (init_world ∅));
    vm_compute; reflexivity.
Defined.

Lemma close_after_setup_witness :
  (forall w, exists w',
      close env_bad_query client w = (inr tt, w')
      /\ w_trace w' = w_trace w ++ [ConnectionClose]
      /\ forall e, e_close env_bad_query = Some e ->
           last (w_log w')
           = Some (ERROR, "Error closing Snowflake connection: " +:+ str_exn e))
  /\ (exists pre statement,
        w_trace world_connected = pre ++ [EngineConnect; Execute statement])
  /\ exists post,
       w_trace (snd (@main crypto env_bad_query (init_world ∅)))
       = w_trace world_connected
         ++ [ReadSql "SELECT id, amount FROM t"; ConnectionClose] ++ post
       /\ forall e, e_read_sql env_bad_query "SELECT id, amount FROM t" = inl e ->
            fst (@main crypto env_bad_query (init_world ∅)) = inl e
            /\ post = [].
Proof.
  exact (@close_after_setup crypto env_bad_query (init_world ∅)
           "SELECT id, amount FROM t" client world_connected
           bad_query_run_reaches_fetch).
Defined.

Lemma missing_key_fails_before_use_witness :
  (exists e, fst (@main crypto env_no_sheet_name (init_world ∅)) = inl e)
  /\ Forall (fun ev => calls_behind "SHEET_NAME" ev = false)
            (w_trace (snd (@main crypto env_no_sheet_name (init_world ∅)))).
Proof.
  apply (@missing_key_fails_before_use crypto env_no_sheet_name ∅
           (delete "SHEET_NAME" config) "SHEET_NAME").
  - vm_compute. reflexivity.
  - vm_compute. auto 10.
  - vm_compute. reflexivity.
Defined.


Lemma private_key_base64_roundtrip_witness :
  exists text,
    fst (@load_private_key_base64 (pkcs8 pem_reader) env_ok "rsa_key.p8"
           (init_world ∅)) = inr text
    /\ fst (@load_private_key_base64 (pkcs8 pem_reader) env_bad_query
              "rsa_key.p8" (init_world old_sheets)) = inr text
    /\ b64decode text = Some (der_pkcs8 key_info)
    /\ b64decode text ≫= parse_pkcs8 = Some key_info.
Proof.
  apply (private_key_base64_roundtrip pem_reader env_ok env_bad_query
           "rsa_key.p8" [Byte.x30; Byte.x82; Byte.x04] key_info);
    vm_compute; reflexivity.
Defined.

(** ** The further properties at the scenario *)

Lemma date_stamp_keeps_query_data_witness :
  df_wf (date_stamp env_ok query_result)
  /\ df_len (date_stamp env_ok query_result) = df_len query_result
  /\ forall i row j c x,
       df_values query_result !! i = Some row ->
       df_columns query_result !! j = Some c ->
       c <> "update_date" ->
       row !! j = Some x ->
       exists row', df_values (date_stamp env_ok query_result) !! i = Some row'
                    /\ df_columns (date_stamp env_ok query_result) !! j = Some c
                    /\ row' !! j = Some x.
Proof.
  apply (date_stamp_keeps_query_data env_ok query_result).
  repeat constructor.
Defined.

Lemma date_stamp_idempotent_witness :
  date_stamp env_ok (date_stamp env_ok query_result)
  = date_stamp env_ok query_result.
Proof.
  apply (date_stamp_idempotent env_ok query_result).
  repeat constructor.
Defined.

Lemma other_worksheets_untouched_witness :
  w_sheets (snd (overwrite_with_dataframe env_ok "Report" query_result
                   (init_world old_sheets))) !! "Archive"
  = w_sheets (init_world old_sheets) !! "Archive".
Proof.
  apply (other_worksheets_untouched env_ok "Report" query_result
           (init_world old_sheets) "Archive").
  discriminate.
Defined.


Lemma created_grid_holds_block_witness :
  exists ws,
    w_sheets (snd (overwrite_with_dataframe env_ok "Report" query_result
                     (init_world ∅))) !! "Report" = Some ws
    /\ (N.of_nat (length (sheet_data query_result)) <= ws_rows ws)%N
    /\ Forall (fun row => (N.of_nat (length row) < ws_cols ws)%N)
              (sheet_data query_result).
Proof.
  apply (created_grid_holds_block env_ok "Report" query_result (init_world ∅)).
  - repeat constructor.
  - vm_compute. reflexivity.
  - vm_compute. reflexivity.
  - vm_compute. reflexivity.
Defined.

Lemma failed_run_leaves_spreadsheet_witness :
  w_sheets (snd (@main crypto env_no_query (init_world old_sheets))) = old_sheets
  /\ Forall (fun ev => is_worksheet_call ev = false)
            (w_trace (snd (@main crypto env_no_query (init_world old_sheets)))).
Proof.
  apply (@failed_run_leaves_spreadsheet crypto env_no_query old_sheets
           (file_not_found "query.sql")).
  vm_compute. reflexivity.
Defined.

Lemma pushed_table_is_stamped_result_witness :
  exists ws,
    w_sheets (snd (@main crypto env_ok (init_world old_sheets))) !! "Report"
    = Some ws
    /\ (forall j, ws_cells ws !! (0, j)
                  = CStr <$> df_columns (date_stamp env_ok query_result) !! j)
    /\ (forall i j, ws_cells ws !! (S i, j)
                    = shown (df_values (date_stamp env_ok query_result) !! i
                             ≫= (.!! j)) None).
Proof.
  apply (@pushed_table_is_stamped_result crypto env_ok old_sheets config
           "SELECT id, amount FROM t" query_result "Report");
    vm_compute; reflexivity.
Defined.

Lemma unlogged_failures_witness :
  exists config,
    e_json Faults.env_config_is_list "config.json" = inr config
    /\ (e_text Faults.env_config_is_list "query.sql"
        = inl (OtherError "TypeError"
                 "list indices must be integers or slices, not str")
        \/ exists k,
             In k main_keys
             /\ match config with
                | ConfigDict d =>
                    d !! k = None
                    /\ OtherError "TypeError"
                         "list indices must be integers or slices, not str"
                       = KeyError k
                | ConfigOther type_error =>
                    OtherError "TypeError"
                      "list indices must be integers or slices, not str"
                    = OtherError "TypeError" type_error
                end).
Proof.
  apply (@unlogged_failures crypto Faults.env_config_is_list ∅
           (OtherError "TypeError"
              "list indices must be integers or slices, not str"));
    vm_compute; reflexivity.
Defined.

Lemma client_reports_first_missing_key_witness :
  SnowflakeClient_init env_ok (ConfigDict Faults.config_no_account) "MIIE"
    Faults.world_after_key
  = (inl (KeyError "SNOWFLAKE_ACCOUNT"),
     {| w_log := w_log Faults.world_after_key
                 ++ [(ERROR, "Error initializing Snowflake: "
                             +:+ str_exn (KeyError "SNOWFLAKE_ACCOUNT"))];
        w_trace := w_trace Faults.world_after_key;
        w_sheets := w_sheets Faults.world_after_key |}).
Proof.
  apply (client_reports_first_missing_key env_ok Faults.config_no_account
           "MIIE" Faults.world_after_key "SNOWFLAKE_ACCOUNT").
  vm_compute. reflexivity.
Defined.

Lemma private_key_text_is_base64_witness :
  exists pem key,
    e_bytes env_ok "rsa_key.p8" = inr pem
    /\ @load_pem_private_key crypto pem = inr key
    /\ "MIIE" = b64encode (@private_bytes_der_pkcs8 crypto key)
    /\ String.length "MIIE"
       = 4 * ((length (@private_bytes_der_pkcs8 crypto key) + 2) / 3)
    /\ forallb is_b64_text_char (list_ascii_of_string "MIIE") = true
    /\ w_log Faults.world_after_key
       = w_log (init_world ∅) ++ [(INFO, "Private key loaded successfully")].
Proof.
  apply (@private_key_text_is_base64 crypto env_ok "rsa_key.p8" (init_world ∅)
           "MIIE" Faults.world_after_key).
  vm_compute. reflexivity.
Defined.

Lemma only_the_named_worksheet_changes_witness :
  w_sheets (snd (@main crypto env_ok (init_world old_sheets))) !! "Archive"
  = old_sheets !! "Archive".
Proof.
  apply (@only_the_named_worksheet_changes crypto env_ok old_sheets config
           "Archive").
  - vm_compute. reflexivity.
  - vm_compute. discriminate.
Defined.


